(** * Hospital patient monitoring scheduler: alert triage and dispatch

    A shallow embedding of [Code/Project.cpp].  The C++ classes become
    modules holding a record and the member functions that the triage path
    uses; a member function that mutates its object takes the object and
    returns the new one.

    - [double] is Rocq's primitive binary64 [float]: the comparisons,
      sums, quotients and square roots below round exactly as the IEEE 754
      operations of the program do.
    - [std::pow(x, 2)], which IEEE 754 does not pin down, is a parameter
      of the model, [pow2] of the class [Libm]: what depends on it is
      stated, and holds, for every library.
    - [std::chrono::system_clock::time_point] is the tick count since the
      epoch, a [Z]; every call of [system_clock::now()] is an explicit
      argument of the function that makes it.
    - [std::map<int, ...>] is a [gmap Z]; the two maps indexed by
      [VitalSign] are only ever read through [operator[]], which yields a
      default-constructed value for an absent key, so they are total
      functions.
    - [std::cout] is the list of the lines written, kept as structured
      records ([Output]).
    - [std::priority_queue] is taken by its contract ([PriorityQueue]).
    - [rand()] and the clock, where a function calls them itself, are read
      from a [World.t]: the values they will return, in order, and how many
      were taken.
    - [std::cin] is the list of the results of the extractions to come.

    The main menu, the registration of patients at the keyboard and the
    pacing of the simulation ([system("sleep 1")]) are left out;
    [Simulation] keeps of the interactive session the calls the scheduler
    receives. *)

From Stdlib Require Import ZArith List Floats Lia String Bool.
From Stdlib Require Import DecimalString Sorting Permutation.
From stdpp Require Import gmap.

#[local] Set Warnings "-inexact-float".
#[local] Open Scope Z_scope.

(** ** Enumerations *)

Inductive Priority := CRITICAL | HIGH | MEDIUM | LOW.

(** The enumerators' values: [CRITICAL = 1, HIGH = 2, MEDIUM = 3, LOW = 4]. *)
Definition priority_value (p : Priority) : Z :=
  match p with CRITICAL => 1 | HIGH => 2 | MEDIUM => 3 | LOW => 4 end.

Definition Priority_eqb (a b : Priority) : bool :=
  priority_value a =? priority_value b.

Inductive VitalSign :=
  | HEART_RATE
  | BLOOD_PRESSURE
  | OXYGEN_SATURATION
  | TEMPERATURE
  | RESPIRATORY_RATE.

Definition VitalSign_eqb (a b : VitalSign) : bool :=
  match a, b with
  | HEART_RATE, HEART_RATE
  | BLOOD_PRESSURE, BLOOD_PRESSURE
  | OXYGEN_SATURATION, OXYGEN_SATURATION
  | TEMPERATURE, TEMPERATURE
  | RESPIRATORY_RATE, RESPIRATORY_RATE => true
  | _, _ => false
  end.

(** ** Arithmetic on [double] *)

Module Double.

#[local] Open Scope float_scope.

(** [a > b] on doubles is [b < a]: false as soon as one side is a NaN. *)
Definition gtb (a b : float) : bool := b <? a.

(** Conversion of a [size_t] to [double] (exact below 2^53). *)
Definition of_size (n : nat) : float :=
  PrimFloat.of_uint63 (Uint63.of_Z (Z.of_nat n)).

(** [static_cast<int>(x)]: truncation toward zero.  The conversion is
    undefined in C++ when the truncated value does not fit an [int] (and
    for infinities and NaN); the model then gives what the x86-64
    conversion instruction gives, [INT_MIN]. *)
Definition to_int (x : float) : Z :=
  let z :=
    match Prim2SF x with
    | S754_zero _ => Some 0%Z
    | S754_finite s m e =>
        let mag := match e with
                   | Zneg k => Z.shiftr (Zpos m) (Zpos k)
                   | _ => Z.shiftl (Zpos m) e
                   end in
        Some (if s then Z.opp mag else mag)
    | _ => None
    end in
  match z with
  | Some z => if ((-2147483648 <=? z) && (z <=? 2147483647))%Z then z
              else (-2147483648)%Z
  | None => (-2147483648)%Z
  end.

(** Conversion of an [int] to [double] (exact). *)
Definition of_int (z : Z) : float :=
  if (z <? 0)%Z then - PrimFloat.of_uint63 (Uint63.of_Z (Z.opp z))
  else PrimFloat.of_uint63 (Uint63.of_Z z).

(** The place of a value in the order of the doubles: [x < y] on doubles
    that are not NaN is [rank x < rank y] (the two zeros share a rank). *)
Definition rank (x : spec_float) : Z :=
  match x with
  | S754_zero _ | S754_nan => 0
  | S754_infinity s => (if s then - 2 ^ 64 * 2 ^ 53 else 2 ^ 64 * 2 ^ 53)%Z
  | S754_finite s m e =>
      let k := ((e + 1075) * 2 ^ 53 + Zpos m)%Z in
      if s then Z.opp k else k
  end.

Definition is_nan_spec (x : spec_float) : bool :=
  match x with S754_nan => true | _ => false end.

Definition rank_of (x : float) : Z := rank (Prim2SF x).

(** A value whose sign bit is clear, or a NaN, in the representation the
    library specifies the operations on. *)
Definition sign_clear (y : spec_float) : Prop :=
  match y with
  | S754_nan => True
  | S754_zero s | S754_infinity s | S754_finite s _ _ => s = false
  end.

End Double.

Notation "a >? b" := (Double.gtb a b) : float_scope.

(** [std::to_string(int)]. *)
Definition to_string (z : Z) : string := NilZero.string_of_int (Z.to_int z).

(** ** Data structures *)

Module VitalReading.
Record t := mk {
  type : VitalSign;
  value : float;
  timestamp : Z;
  patientId : Z
}.
End VitalReading.

Module Alert.
Record t := mk {
  patientId : Z;
  priority : Priority;
  message : string;
  relatedVital : VitalSign;
  createdAt : Z;
  acknowledged : bool
}.

(** The constructor: [createdAt] is the clock reading [now] at
    construction, [acknowledged] starts false. *)
Definition new (now : Z) (pid : Z) (p : Priority) (msg : string)
    (vital : VitalSign) : t :=
  {| patientId := pid; priority := p; message := msg; relatedVital := vital;
     createdAt := now; acknowledged := false |}.
End Alert.

(** [AlertComparator::operator()]: [true] when [a] is to be served after
    [b]. *)
Definition AlertComparator (a b : Alert.t) : bool :=
  if negb (Priority_eqb (Alert.priority a) (Alert.priority b)) then
    priority_value (Alert.priority a) >? priority_value (Alert.priority b)
  else
    Alert.createdAt a >? Alert.createdAt b.

(** A counted [for (i = lo; i < lo + n; i++)] loop threading an
    accumulator. *)
Fixpoint for_loop {A : Type} (n : nat) (i : nat) (body : nat -> A -> A)
    (acc : A) : A :=
  match n with
  | O => acc
  | S n' => for_loop n' (S i) body (body i acc)
  end.

(** ** class Patient *)

Module Patient.

#[local] Open Scope float_scope.

Record t := mk {
  patientId : Z;
  name : string;
  age : Z;
  vitalHistory : VitalSign -> list VitalReading.t;
  normalRanges : VitalSign -> float * float;
  currentRiskLevel : Priority
}.

Definition initializeNormalRanges (v : VitalSign) : float * float :=
  match v with
  | HEART_RATE => (60.0, 100.0)
  | BLOOD_PRESSURE => (90.0, 140.0)
  | OXYGEN_SATURATION => (95.0, 100.0)
  | TEMPERATURE => (36.1, 37.2)
  | RESPIRATORY_RATE => (12.0, 20.0)
  end.

Definition new (id : Z) (patientName : string) (patientAge : Z) : t :=
  {| patientId := id; name := patientName; age := patientAge;
     vitalHistory := fun _ => [];
     normalRanges := initializeNormalRanges;
     currentRiskLevel := LOW |}.

Definition set_history (p : t) (vital : VitalSign)
    (h : list VitalReading.t) : t :=
  {| patientId := patientId p; name := name p; age := age p;
     vitalHistory :=
       fun v => if VitalSign_eqb v vital then h else vitalHistory p v;
     normalRanges := normalRanges p;
     currentRiskLevel := currentRiskLevel p |}.

(** [push_back], then [erase(begin())] once the vector holds more than
    100 readings. *)
Definition addVitalReading (reading : VitalReading.t) (p : t) : t :=
  let pushed := vitalHistory p (VitalReading.type reading) ++ [reading] in
  set_history p (VitalReading.type reading)
    (if (100 <? length pushed)%nat then tl pushed else pushed).

Definition assessRisk (reading : VitalReading.t) (p : t) : Priority :=
  let range := normalRanges p (VitalReading.type reading) in
  let value := VitalReading.value reading in
  let banded : option Priority :=
    match VitalReading.type reading with
    | HEART_RATE =>
        if (value <? 30) || (value >? 180) then Some CRITICAL
        else if (value <? 50) || (value >? 120) then Some HIGH
        else None
    | OXYGEN_SATURATION =>
        if value <? 85 then Some CRITICAL
        else if value <? 92 then Some HIGH
        else None
    | BLOOD_PRESSURE =>
        if (value <? 60) || (value >? 200) then Some CRITICAL
        else if (value <? 80) || (value >? 160) then Some HIGH
        else None
    | TEMPERATURE =>
        if (value <? 35.0) || (value >? 39.0) then Some HIGH
        else if (value <? 35.5) || (value >? 38.5) then Some MEDIUM
        else None
    | RESPIRATORY_RATE =>
        if (value <? 8) || (value >? 30) then Some HIGH
        else if (value <? 10) || (value >? 25) then Some MEDIUM
        else None
    end in
  match banded with
  | Some risk => risk
  | None =>
      if (value <? fst range) || (value >? snd range) then MEDIUM else LOW
  end.

(** [history[i].value]: unchecked indexing. *)
Definition value_at (history : list VitalReading.t) (i : nat) : float :=
  nth i (map VitalReading.value history) 0.

Definition detectTrend (vital : VitalSign) (p : t) : bool :=
  let history := vitalHistory p vital in
  if (length history <? 5)%nat then false
  else
    let sum :=
      for_loop 4 (length history - 4)
        (fun i sum => sum + (value_at history i - value_at history (i - 1)))
        0 in
    let avgChange := sum / 4.0 in
    abs avgChange >? 2.0.

Definition getRecentReadings (vital : VitalSign) (count : Z) (p : t)
    : list VitalReading.t :=
  let history := vitalHistory p vital in
  match history with
  | [] => []
  | _ =>
      let start := Z.max 0 (Z.of_nat (length history) - count) in
      skipn (Z.to_nat start) history
  end.

Definition getId (p : t) : Z := patientId p.
Definition getName (p : t) : string := name p.
Definition getCurrentRisk (p : t) : Priority := currentRiskLevel p.
Definition setCurrentRisk (risk : Priority) (p : t) : t :=
  {| patientId := patientId p; name := name p; age := age p;
     vitalHistory := vitalHistory p; normalRanges := normalRanges p;
     currentRiskLevel := risk |}.

End Patient.

(** ** The outside world

    The values [rand()] and [system_clock::now()] will return, call after
    call, and the number of calls made so far. *)

Module World.
Record t := mk {
  rand_values : nat -> Z;
  rand_calls : nat;
  clock_values : nat -> Z;
  clock_calls : nat
}.

Definition rand (w : t) : Z * t :=
  (rand_values w (rand_calls w),
   {| rand_values := rand_values w; rand_calls := S (rand_calls w);
      clock_values := clock_values w; clock_calls := clock_calls w |}).

Definition now (w : t) : Z * t :=
  (clock_values w (clock_calls w),
   {| rand_values := rand_values w; rand_calls := rand_calls w;
      clock_values := clock_values w; clock_calls := S (clock_calls w) |}).

(** The clock after [n] more calls. *)
Definition tick (n : nat) (w : t) : t :=
  {| rand_values := rand_values w; rand_calls := rand_calls w;
     clock_values := clock_values w;
     clock_calls := (clock_calls w + n)%nat |}.
End World.

(** ** The mathematical library

    [std::pow(x, 2)] is the one operation on [double] of the program that
    IEEE 754 does not pin down: the C++ standard leaves its accuracy to
    the implementation, and builds of the program differ.  A compiler that
    turns the call into a multiplication gives the correctly rounded
    [x * x]; a call of the library's [pow] can give a neighbour of it
    where the square is not a [double].  The function is therefore a
    parameter of the model, [pow2]: nothing is assumed of it, and the
    theorems hold of every such function. *)

Class Libm := { pow2 : float -> float }.

(** ** class MedicalDevice *)

Module MedicalDevice.
Record t := mk {
  deviceId : Z;
  monitoredVital : VitalSign;
  assignedPatient : Z;
  isActive : bool
}.

Definition new (id : Z) (vital : VitalSign) (pid : Z) : t :=
  {| deviceId := id; monitoredVital := vital; assignedPatient := pid;
     isActive := true |}.

Definition getBaseValue (d : t) : float :=
  match monitoredVital d with
  | HEART_RATE => 75.0
  | BLOOD_PRESSURE => 120.0
  | OXYGEN_SATURATION => 98.0
  | TEMPERATURE => 36.8
  | RESPIRATORY_RATE => 16.0
  end%float.

(** [(rand() % 61) - 30], an [int], returned as a [double]. *)
Definition getAbnormalSpike (w : World.t) : float * World.t :=
  let (r, w) := World.rand w in
  (Double.of_int (Z.rem r 61 - 30), w).

(** The noise is drawn first, then the chance of a spike, then the spike
    if there is one; the constructor of the reading reads the clock. *)
Definition generateReading (d : t) (w : World.t) : VitalReading.t * World.t :=
  let baseValue := getBaseValue d in
  let (r_noise, w) := World.rand w in
  let noise := (Double.of_int (Z.rem r_noise 21 - 10) * 0.1)%float in
  let (r_chance, w) := World.rand w in
  let '(noise, w) :=
    if Z.rem r_chance 100 <? 10 then
      let (spike, w) := getAbnormalSpike w in ((noise + spike)%float, w)
    else (noise, w) in
  let (timestamp, w) := World.now w in
  (VitalReading.mk (monitoredVital d) (baseValue + noise)%float timestamp
     (assignedPatient d),
   w).

Definition stopMonitoring (d : t) : t :=
  {| deviceId := deviceId d; monitoredVital := monitoredVital d;
     assignedPatient := assignedPatient d; isActive := false |}.

Definition isDeviceActive (d : t) : bool := isActive d.
Definition getPatientId (d : t) : Z := assignedPatient d.
Definition getVitalSign (d : t) : VitalSign := monitoredVital d.
End MedicalDevice.

(** ** class FalseAlarmDetector *)

Module FalseAlarmDetector.

#[local] Open Scope float_scope.

Definition calculateMean (readings : list VitalReading.t) : float :=
  let sum :=
    fold_left (fun sum reading => sum + VitalReading.value reading)
      readings 0.0 in
  sum / Double.of_size (length readings).

Definition calculateStandardDeviation {libm : Libm}
    (readings : list VitalReading.t)
    (mean : float) : float :=
  let variance :=
    fold_left
      (fun variance reading =>
         variance + pow2 (VitalReading.value reading - mean))
      readings 0.0 in
  sqrt (variance / Double.of_size (length readings)).

(** [recentReadings.back().value] *)
Definition back_value (readings : list VitalReading.t) : float :=
  List.last (map VitalReading.value readings) 0.

Definition isLikelyFalseAlarm {libm : Libm} (alert : Alert.t)
    (recentReadings : list VitalReading.t) : bool :=
  if (length recentReadings <? 5)%nat then false
  else
    let mean := calculateMean recentReadings in
    let stdDev := calculateStandardDeviation recentReadings mean in
    if stdDev =? 0 then false
    else
      let currentValue := back_value recentReadings in
      let zScore := abs ((currentValue - mean) / stdDev) in
      let threshold :=
        if Priority_eqb (Alert.priority alert) CRITICAL then 2.5 else 1.5 in
      zScore <? threshold.

End FalseAlarmDetector.

(** ** std::priority_queue

    The container adaptor of the standard library, by its contract: the
    queue holds the elements pushed and not yet popped, [top] is an element
    that [comp] orders before no other one, [pop] removes it.  Which of
    several equivalent elements comes first is left open by the standard;
    [select] takes the earliest pushed one that qualifies. *)

Module PriorityQueue.
Section Queue.
Context {A : Type} (comp : A -> A -> bool).

Definition empty (q : list A) : bool :=
  match q with [] => true | _ => false end.

Definition push (x : A) (q : list A) : list A := q ++ [x].

Fixpoint select (a : A) (rest : list A) : A * list A :=
  match rest with
  | [] => (a, [])
  | b :: rest' =>
      let (m, others) := select b rest' in
      if comp a m then (m, a :: others) else (a, rest)
  end.

Definition top (q : list A) : option A :=
  match q with
  | [] => None
  | a :: rest => Some (fst (select a rest))
  end.

Definition pop (q : list A) : list A :=
  match q with
  | [] => []
  | a :: rest => snd (select a rest)
  end.

(** Repeated [top]/[pop], at most [fuel] times: the order of service. *)
Fixpoint drain (fuel : nat) (q : list A) : list A :=
  match fuel with
  | O => []
  | S fuel' =>
      match top q with
      | None => []
      | Some a => a :: drain fuel' (pop q)
      end
  end.

(** The contract: [a] is in the queue and is ordered before nothing in
    it. *)
Definition is_top (q : list A) (a : A) : Prop :=
  In a q /\ forall b, In b q -> comp a b = false.

(** [serves q out]: some queue meeting the contract hands out [out]
    when emptied from content [q]. *)
Inductive serves : list A -> list A -> Prop :=
| serves_nil : serves [] []
| serves_cons q a q' out :
    is_top q a -> Permutation q (a :: q') -> serves q' out ->
    serves q (a :: out).
End Queue.
End PriorityQueue.

(** ** Console output *)

(** [Line] is a line of fixed text; [AlertLine] is the line [handleAlert]
    writes for an alert, with its priority, patient, message, response
    time in milliseconds and compliance mark (the wall-clock time it starts
    with is left out). *)
Inductive Output :=
  | Line (text : string)
  | AlertLine (p : Priority) (pid : Z) (message : string)
      (responseTime : Z) (withinTimeRequirement : bool).

(** ** class AlertProcessor *)

Module AlertProcessor.

Record t := mk {
  alertQueue : list Alert.t;
  totalAlertsProcessed : Z;
  falseAlarmsFiltered : Z
}.

Definition new : t :=
  {| alertQueue := []; totalAlertsProcessed := 0; falseAlarmsFiltered := 0 |}.

Definition addAlert (alert : Alert.t) (ap : t) : t :=
  {| alertQueue := PriorityQueue.push alert (alertQueue ap);
     totalAlertsProcessed := totalAlertsProcessed ap;
     falseAlarmsFiltered := falseAlarmsFiltered ap |}.

Definition getTotalAlertsProcessed (ap : t) : Z := totalAlertsProcessed ap.
Definition getFalseAlarmsFiltered (ap : t) : Z := falseAlarmsFiltered ap.
Definition hasAlerts (ap : t) : bool :=
  negb (PriorityQueue.empty (alertQueue ap)).

(** Ticks of [system_clock] in a millisecond (the clock counts
    nanoseconds). *)
Definition ticks_per_ms : Z := 1000000.

(** [duration_cast<milliseconds>(d).count()]: truncating division. *)
Definition duration_cast_ms (d : Z) : Z := Z.quot d ticks_per_ms.

Definition checkResponseTimeRequirement (priority : Priority)
    (responseTimeMs : Z) : bool :=
  match priority with
  | CRITICAL => responseTimeMs <=? 2000
  | HIGH => responseTimeMs <=? 30000
  | MEDIUM => responseTimeMs <=? 300000
  | LOW => responseTimeMs <=? 3600000
  end.

Definition handleCriticalAlert : Output :=
  Line "    >>> CRITICAL ALERT: Immediate medical attention required!".
Definition handleHighAlert : Output :=
  Line "    >>> HIGH PRIORITY: Nurse response needed within 30 seconds".
Definition handleMediumAlert : Output :=
  Line "    >>> MEDIUM: Check on patient within 5 minutes".
Definition handleLowAlert : Output :=
  Line "    >>> LOW: Routine check during next rounds".

Definition handleAlert (now : Z) (alert : Alert.t) : list Output :=
  let responseTime := duration_cast_ms (now - Alert.createdAt alert) in
  let withinTimeRequirement :=
    checkResponseTimeRequirement (Alert.priority alert) responseTime in
  [ AlertLine (Alert.priority alert) (Alert.patientId alert)
      (Alert.message alert) responseTime withinTimeRequirement;
    match Alert.priority alert with
    | CRITICAL => handleCriticalAlert
    | HIGH => handleHighAlert
    | MEDIUM => handleMediumAlert
    | LOW => handleLowAlert
    end ].

Definition processNextAlert (now : Z) (ap : t) : t * list Output :=
  match PriorityQueue.top AlertComparator (alertQueue ap) with
  | Some alert =>
      ({| alertQueue := PriorityQueue.pop AlertComparator (alertQueue ap);
          totalAlertsProcessed := totalAlertsProcessed ap + 1;
          falseAlarmsFiltered := falseAlarmsFiltered ap |},
       handleAlert now alert)
  | None => (ap, [])
  end.

(** [while (!alertQueue.empty()) processNextAlert();] with a bound on the
    iterations; the [k]-th iteration reads the clock as [clock k].
    [None] when the bound is reached with alerts left. *)
Fixpoint processAllAlerts_loop (fuel : nat) (clock : nat -> Z) (k : nat)
    (ap : t) : option (t * list Output) :=
  if PriorityQueue.empty (alertQueue ap) then Some (ap, [])
  else
    match fuel with
    | O => None
    | S fuel' =>
        let (ap', out) := processNextAlert (clock k) ap in
        match processAllAlerts_loop fuel' clock (S k) ap' with
        | Some (ap'', out') => Some (ap'', out ++ out')
        | None => None
        end
    end.

Definition processAllAlerts (clock : nat -> Z) (ap : t)
    : option (t * list Output) :=
  processAllAlerts_loop (length (alertQueue ap)) clock 0 ap.

End AlertProcessor.

(** ** class HospitalScheduler *)

Module HospitalScheduler.

Record t := mk {
  patients : gmap Z Patient.t;
  devices : list MedicalDevice.t;
  alertProcessor : AlertProcessor.t
}.

Definition new : t :=
  {| patients := ∅; devices := []; alertProcessor := AlertProcessor.new |}.

Definition createDevicesForPatient (patientId : Z)
    (devices : list MedicalDevice.t) : list MedicalDevice.t :=
  let add vital ds :=
    ds ++ [MedicalDevice.new (Z.of_nat (length ds)) vital patientId] in
  add TEMPERATURE
    (add OXYGEN_SATURATION (add BLOOD_PRESSURE (add HEART_RATE devices))).

Definition addPatient (patient : Patient.t) (hs : t) : t :=
  let patientId := Patient.getId patient in
  {| patients := <[patientId := patient]> (patients hs);
     devices := createDevicesForPatient patientId (devices hs);
     alertProcessor := alertProcessor hs |}.

Definition vitalSignToString (vital : VitalSign) : string :=
  match vital with
  | HEART_RATE => "Heart Rate"
  | BLOOD_PRESSURE => "Blood Pressure"
  | OXYGEN_SATURATION => "Oxygen Saturation"
  | TEMPERATURE => "Temperature"
  | RESPIRATORY_RATE => "Respiratory Rate"
  end.

Definition generateAlertMessage (reading : VitalReading.t)
    (priority : Priority) : string :=
  let vital := vitalSignToString (VitalReading.type reading) in
  (vital ++ " reading: "
     ++ to_string (Double.to_int (VitalReading.value reading))
     ++ " (Priority: " ++ to_string (priority_value priority) ++ ")")%string.

Definition falseAlarmLine (reading : VitalReading.t) (message : string)
    : Output :=
  Line ("[FALSE ALARM FILTERED] Patient "
          ++ to_string (VitalReading.patientId reading)
          ++ ": " ++ message)%string.

(** [now_alert] and [now_trend] are the clock readings taken by the two
    [Alert] constructors, when they run. *)
Definition processVitalReading {libm : Libm} (now_alert now_trend : Z)
    (reading : VitalReading.t) (hs : t) : t * list Output :=
  match patients hs !! VitalReading.patientId reading with
  | None => (hs, [])
  | Some patient =>
      let patient := Patient.addVitalReading reading patient in
      let risk := Patient.assessRisk reading patient in
      let '(ap, out) :=
        if negb (Priority_eqb risk LOW) then
          let message := generateAlertMessage reading risk in
          let alert :=
            Alert.new now_alert (VitalReading.patientId reading) risk
              message (VitalReading.type reading) in
          let recentReadings :=
            Patient.getRecentReadings (VitalReading.type reading) 10
              patient in
          if negb (FalseAlarmDetector.isLikelyFalseAlarm alert
                     recentReadings)
          then (AlertProcessor.addAlert alert (alertProcessor hs), [])
          else (alertProcessor hs, [falseAlarmLine reading message])
        else (alertProcessor hs, []) in
      let ap :=
        if Patient.detectTrend (VitalReading.type reading) patient then
          let trendMessage :=
            ("Concerning trend detected in "
               ++ vitalSignToString (VitalReading.type reading))%string in
          let trendAlert :=
            Alert.new now_trend (VitalReading.patientId reading) MEDIUM
              trendMessage (VitalReading.type reading) in
          AlertProcessor.addAlert trendAlert ap
        else ap in
      ({| patients :=
            <[VitalReading.patientId reading := patient]> (patients hs);
          devices := devices hs;
          alertProcessor := ap |},
       out)
  end.

(** A stream of readings, each with the two clock readings of its
    call. *)
Fixpoint processVitalReadings {libm : Libm}
    (calls : list (Z * Z * VitalReading.t))
    (hs : t) : t * list Output :=
  match calls with
  | [] => (hs, [])
  | (now_alert, now_trend, reading) :: calls' =>
      let (hs', out) := processVitalReading now_alert now_trend reading hs in
      let (hs'', out') := processVitalReadings calls' hs' in
      (hs'', out ++ out')
  end.

(** [processVitalReading] with the clock read where the program reads it:
    once when the candidate alert is constructed, once when the trend
    alert is. *)
Definition processVitalReading_in {libm : Libm}
    (reading : VitalReading.t) (hs : t)
    (w : World.t) : t * list Output * World.t :=
  match patients hs !! VitalReading.patientId reading with
  | None => (hs, [], w)
  | Some patient =>
      let patient := Patient.addVitalReading reading patient in
      let risk := Patient.assessRisk reading patient in
      let (now_alert, w) :=
        if negb (Priority_eqb risk LOW) then World.now w else (0, w) in
      let (now_trend, w) :=
        if Patient.detectTrend (VitalReading.type reading) patient
        then World.now w else (0, w) in
      (processVitalReading now_alert now_trend reading hs, w)
  end.

(** The loop of [simulateMonitoringCycle] over the devices. *)
Fixpoint readDevices {libm : Libm}
    (ds : list MedicalDevice.t) (hs : t) (w : World.t)
    : t * list Output * World.t :=
  match ds with
  | [] => (hs, [], w)
  | device :: ds' =>
      if MedicalDevice.isDeviceActive device then
        let (reading, w) := MedicalDevice.generateReading device w in
        let '(hs, out, w) := processVitalReading_in reading hs w in
        let '(hs, out', w) := readDevices ds' hs w in
        (hs, out ++ out', w)
      else readDevices ds' hs w
  end.

(** [alertProcessor->processAllAlerts()]: each alert handled reads the
    clock twice, for its response time and for the time its line starts
    with. *)
Definition processAllAlerts_in (hs : t) (w : World.t)
    : option (t * list Output * World.t) :=
  let n := length (AlertProcessor.alertQueue (alertProcessor hs)) in
  match AlertProcessor.processAllAlerts
          (fun k => World.clock_values w (World.clock_calls w + 2 * k)%nat)
          (alertProcessor hs) with
  | Some (ap, out) =>
      Some ({| patients := patients hs; devices := devices hs;
               alertProcessor := ap |},
            out, World.tick (2 * n) w)
  | None => None
  end.

Definition simulateMonitoringCycle {libm : Libm} (hs : t) (w : World.t)
    : option (t * list Output * World.t) :=
  let '(hs, out, w) := readDevices (devices hs) hs w in
  match processAllAlerts_in hs w with
  | Some (hs, out', w) => Some (hs, out ++ out', w)
  | None => None
  end.

(** The loop of [runSimulation], from cycle [i] on, [n] cycles to go. *)
Fixpoint runCycles {libm : Libm} (n : nat) (i : Z) (hs : t) (w : World.t)
    : option (t * list Output * World.t) :=
  match n with
  | O => Some (hs, [], w)
  | S n' =>
      match simulateMonitoringCycle hs w with
      | Some (hs, out, w) =>
          match runCycles n' (i + 1) hs w with
          | Some (hs, out', w) =>
              Some (hs,
                    Line "" :: Line ("--- Cycle " ++ to_string (i + 1) ++ " ---")%string
                      :: out ++ out',
                    w)
          | None => None
          end
      | None => None
      end
  end.

Definition runSimulation {libm : Libm} (cycles : Z) (hs : t) (w : World.t)
    : option (t * list Output * World.t) :=
  match runCycles (Z.to_nat cycles) 0 hs w with
  | Some (hs, out, w) =>
      Some (hs,
            Line ("Starting monitoring simulation for " ++ to_string cycles
                    ++ " cycles...")%string :: out,
            w)
  | None => None
  end.

Definition printStatistics (hs : t) : list Output :=
  [ Line "";
    Line "=== System Statistics ===";
    Line ("Total Patients: "
            ++ to_string (Z.of_nat (size (patients hs))))%string;
    Line ("Total Devices: "
            ++ to_string (Z.of_nat (length (devices hs))))%string;
    Line ("Alerts Processed: "
            ++ to_string (AlertProcessor.getTotalAlertsProcessed
                            (alertProcessor hs)))%string;
    Line ("False Alarms Filtered: "
            ++ to_string (AlertProcessor.getFalseAlarmsFiltered
                            (alertProcessor hs)))%string ].

End HospitalScheduler.

(** ** Free functions *)

(** One extraction [std::cin >> value] of an [int]: it fails, or yields a
    number. *)
Inductive Extraction :=
  | Failed
  | Got (value : Z).

(** [getUserInput]: asks until an extraction yields a number between
    [min] and [max].  The result is that number, the lines written and the
    extractions left; [None] when the input runs out first (the program
    then waits, or asks forever once the input is closed). *)
Fixpoint getUserInput (prompt : string) (min max : Z)
    (input : list Extraction) : option (Z * list Output * list Extraction) :=
  match input with
  | [] => None
  | attempt :: input' =>
      let retry (complaint : string) :=
        match getUserInput prompt min max input' with
        | Some (value, out, rest) =>
            Some (value, Line prompt :: Line complaint :: out, rest)
        | None => None
        end in
      match attempt with
      | Failed => retry "Invalid input! Please enter a number."%string
      | Got value =>
          if (min <=? value) && (value <=? max) then
            Some (value, [Line prompt], input')
          else
            retry ("Please enter a value between " ++ to_string min
                     ++ " and " ++ to_string max)%string
      end
  end.

(** The extractions after which [getUserInput] asks again: a failed one,
    or a number out of range. *)
Definition out_of_range (min max : Z) (attempt : Extraction) : Prop :=
  match attempt with
  | Failed => True
  | Got value => value < min \/ max < value
  end.

(** [now] is the clock reading of the reading's constructor. *)
Definition createEmergencyReading (now : Z) (emergencyType : Z)
    (patientId : Z) : VitalReading.t :=
  match emergencyType with
  | 1 => VitalReading.mk HEART_RATE 200.0 now patientId
  | 2 => VitalReading.mk OXYGEN_SATURATION 75.0 now patientId
  | 3 => VitalReading.mk BLOOD_PRESSURE 220.0 now patientId
  | 4 => VitalReading.mk TEMPERATURE 32.0 now patientId
  | _ => VitalReading.mk HEART_RATE 200.0 now patientId
  end.

(** [simulateEmergency]: the patient and the kind of emergency are asked
    for, the reading is made and handed to the scheduler. *)
Definition simulateEmergency {libm : Libm}
    (hs : HospitalScheduler.t) (w : World.t)
    (input : list Extraction)
    : option (HospitalScheduler.t * list Output * World.t * list Extraction) :=
  match getUserInput "Enter patient ID for emergency (1-10): " 1 10 input with
  | None => None
  | Some (patientId, out1, input) =>
      match getUserInput "Emergency type (1-4): " 1 4 input with
      | None => None
      | Some (emergencyType, out2, input) =>
          let (now, w) := World.now w in
          let emergencyReading :=
            createEmergencyReading now emergencyType patientId in
          let '(hs, out3, w) :=
            HospitalScheduler.processVitalReading_in emergencyReading hs w in
          Some (hs,
                Line "" :: Line "!!! EMERGENCY SIMULATION ACTIVATED !!!"
                  :: out1
                  ++ [Line ""; Line "Select emergency type:";
                      Line "1. Cardiac arrest (Critical heart rate)";
                      Line "2. Respiratory failure (Critical oxygen)";
                      Line "3. Severe hypertension (Critical blood pressure)";
                      Line "4. Hypothermia (Critical temperature)"]
                  ++ out2
                  ++ [Line ""; Line ">>> EMERGENCY TRIGGERED <<<"]
                  ++ out3
                  ++ [Line "Emergency simulation complete."],
                w, input)
      end
  end.


(** ** The simulation, as seen from the scheduler

    The simulation registers patients it has just constructed, hands
    readings to [processVitalReading] (those of the devices, and
    emergencies) and lets the alert processor handle all queued alerts at
    the end of each monitoring cycle. *)

Module Simulation.

Inductive Step :=
  | AddPatient (id : Z) (name : string) (age : Z)
  | Reading (now_alert now_trend : Z) (reading : VitalReading.t)
  | ProcessAllAlerts (clock : nat -> Z).

Definition step {libm : Libm}
    (hs : HospitalScheduler.t) (s : Step) : HospitalScheduler.t :=
  match s with
  | AddPatient id name age =>
      HospitalScheduler.addPatient (Patient.new id name age) hs
  | Reading now_alert now_trend reading =>
      fst (HospitalScheduler.processVitalReading now_alert now_trend
             reading hs)
  | ProcessAllAlerts clock =>
      match AlertProcessor.processAllAlerts clock
              (HospitalScheduler.alertProcessor hs) with
      | Some (ap, _) =>
          {| HospitalScheduler.patients := HospitalScheduler.patients hs;
             HospitalScheduler.devices := HospitalScheduler.devices hs;
             HospitalScheduler.alertProcessor := ap |}
      | None => hs
      end
  end.

(** The scheduler after the steps [steps], from a new one. *)
Definition run {libm : Libm} (steps : list Step) : HospitalScheduler.t :=
  fold_left step steps HospitalScheduler.new.

(** The number of registrations among the steps. *)
Definition registrations (steps : list Step) : nat :=
  length (List.filter
            (fun s => match s with AddPatient _ _ _ => true | _ => false end)
            steps).

(** [P] holds of every patient record of the scheduler. *)
Definition all_patients (P : Patient.t -> Prop) (hs : HospitalScheduler.t)
    : Prop :=
  forall pid p, HospitalScheduler.patients hs !! pid = Some p -> P p.

End Simulation.

(** ** Notions of the specification

    What the specification's sentences speak of, written from its words;
    the theorems below relate them to the program. *)

Module Spec.

#[local] Open Scope float_scope.

(** *** Trend *)

(** The last [n] entries of a sequence (all of it when shorter). *)
Definition last_n {A : Type} (n : nat) (l : list A) : list A :=
  skipn (length l - n) l.

(** [x1 - x0, x2 - x1, ...]: the differences of adjacent entries. *)
Fixpoint first_differences (l : list float) : list float :=
  match l with
  | [] => []
  | a :: t =>
      match t with
      | [] => []
      | b :: _ => (b - a) :: first_differences t
      end
  end.

Definition sum (l : list float) : float := fold_left PrimFloat.add l 0.

(** The mean of the four first-differences over the last 5 readings. *)
Definition mean_change (window : list float) : float :=
  sum (first_differences (last_n 5 window)) / 4.

(** *** False alarms *)

Definition population_mean (l : list float) : float :=
  sum l / Double.of_size (length l).

(** Variance as the mean of the squared deviations, its root; [square] is
    how a deviation is squared. *)
Definition population_std (square : float -> float) (l : list float)
    : float :=
  let mu := population_mean l in
  sqrt (population_mean (map (fun x => square (x - mu)) l)).

(** [|latest - mean| / std], the latest reading being the last one. *)
Definition z_score (square : float -> float) (l : list float) : float :=
  abs (List.last l 0 - population_mean l) / population_std square l.

Definition suppression_threshold (p : Priority) : float :=
  match p with CRITICAL => 2.5 | _ => 1.5 end.

(** *** Dispatch order *)

(** Priority ascending, then creation time ascending. *)
Definition dispatch_le (a b : Alert.t) : Prop :=
  (priority_value (Alert.priority a) < priority_value (Alert.priority b)
   \/ (Alert.priority a = Alert.priority b
       /\ Alert.createdAt a <= Alert.createdAt b))%Z.

(** The lines written when the alerts of [order] are handled one after
    the other, the first at time [clock k], the next at [clock (k + 1)],
    and so on. *)
Fixpoint handled_in_turn (clock : nat -> Z) (k : nat)
    (order : list Alert.t) : list Output :=
  match order with
  | [] => []
  | alert :: order' =>
      AlertProcessor.handleAlert (clock k) alert
        ++ handled_in_turn clock (S k) order'
  end.

(** *** History windows *)

(** The readings of a stream of calls that are for patient [pid] and
    vital [vital], in order of arrival. *)
Definition readings_for (pid : Z) (vital : VitalSign)
    (calls : list (Z * Z * VitalReading.t)) : list VitalReading.t :=
  List.filter
    (fun r => (VitalReading.patientId r =? pid)%Z
              && VitalSign_eqb (VitalReading.type r) vital)
    (map snd calls).

(** *** Unknown subjects *)

(** [processVitalReading] returns [void] and throws nothing: what a call
    hands back to its caller is what it writes.  A call fails distinctly
    when this differs from what any call for a registered patient hands
    back. *)
Definition fails_distinctly {libm : Libm} (now_alert now_trend : Z)
    (reading : VitalReading.t) (hs : HospitalScheduler.t) : Prop :=
  forall now_alert' now_trend' reading',
    is_Some (HospitalScheduler.patients hs
               !! VitalReading.patientId reading') ->
    snd (HospitalScheduler.processVitalReading now_alert now_trend
           reading hs)
    <> snd (HospitalScheduler.processVitalReading now_alert' now_trend'
              reading' hs).

(** *** Aggregate risk *)

(** The more urgent of two priorities. *)
Definition more_urgent (a b : Priority) : Priority :=
  if (priority_value a <=? priority_value b)%Z then a else b.

(** The highest priority among the unacknowledged alerts of patient
    [pid]; [None] when there is none. *)
Definition max_unacknowledged (pid : Z) (alerts : list Alert.t)
    : option Priority :=
  fold_right
    (fun a acc =>
       if (Alert.patientId a =? pid)%Z && negb (Alert.acknowledged a) then
         Some (match acc with
               | Some m => more_urgent (Alert.priority a) m
               | None => Alert.priority a
               end)
       else acc)
    None alerts.

(** The stored risk level of every patient with an unacknowledged alert
    is the highest priority among these. *)
Definition risk_tracks_alerts (hs : HospitalScheduler.t) : Prop :=
  forall pid p m,
    HospitalScheduler.patients hs !! pid = Some p ->
    max_unacknowledged pid
      (AlertProcessor.alertQueue (HospitalScheduler.alertProcessor hs))
      = Some m ->
    Patient.getCurrentRisk p = m.

(** *** Monitoring cycles *)

(** The readings [readings] are taken from the devices [active] one after
    the other, from [w] on: each is what [generateReading] gives where the
    reading before it left [rand()] and the clock, and goes with the times
    [now_alert] and [now_trend] read from the clock after it, when they
    are read, for a candidate alert and for a trend alert (0 stands for a
    time that is not read).  [w_end] is where the last reading leaves
    [rand()] and the clock. *)
Fixpoint read_in_turn (w : World.t) (active : list MedicalDevice.t)
    (readings : list (VitalReading.t * Z * Z)) (w_end : World.t) : Prop :=
  match active, readings with
  | [], [] => w_end = w
  | device :: active', (reading, now_alert, now_trend) :: readings' =>
      let (drawn, w1) := MedicalDevice.generateReading device w in
      reading = drawn
      /\ exists alert trend : bool,
           now_alert
           = (if alert then World.clock_values w1 (World.clock_calls w1)
              else 0%Z)
           /\ now_trend
              = (if trend
                 then World.clock_values w1
                        (World.clock_calls w1 + Nat.b2n alert)
                 else 0%Z)
           /\ read_in_turn (World.tick (Nat.b2n alert + Nat.b2n trend) w1)
                active' readings' w_end
  | _, _ => False
  end.

(** The calls the scheduler receives for these readings. *)
Definition reading_steps (readings : list (VitalReading.t * Z * Z))
    : list Simulation.Step :=
  map (fun '(reading, now_alert, now_trend) =>
         Simulation.Reading now_alert now_trend reading)
    readings.

(** The calls of one monitoring cycle: the readings, then all queued
    alerts are handled, the clock being read twice for each from [w_end]
    on. *)
Definition cycle_steps (readings : list (VitalReading.t * Z * Z))
    (w_end : World.t) : list Simulation.Step :=
  reading_steps readings
    ++ [Simulation.ProcessAllAlerts
          (fun k =>
             World.clock_values w_end (World.clock_calls w_end + 2 * k))].

(** One monitoring cycle, from a scheduler and a state of [rand()] and the
    clock to the next. *)
Definition one_cycle {libm : Libm}
    (state : HospitalScheduler.t * World.t) : HospitalScheduler.t * World.t :=
  match HospitalScheduler.simulateMonitoringCycle (fst state) (snd state) with
  | Some (hs, _, w) => (hs, w)
  | None => state
  end.

End Spec.


(** ** Sample wards *)

(** The library of a build in which [std::pow(x, 2)] is the multiplication
    [x * x].  The runs on the sample wards below (examples, and the
    instances a theorem is applied at) are made with it. *)
#[global] Instance correctly_rounded : Libm := {| pow2 x := (x * x)%float |}.

Module Scenario.

#[local] Open Scope float_scope.

Definition john : Patient.t := Patient.new 1 "John Doe" 45.

(** A heart-rate reading of patient 1 taken at time [t]. *)
Definition heart_rate (x : float) (t : Z) : VitalReading.t :=
  VitalReading.mk HEART_RATE x t 1.

(** One registered patient, nothing recorded yet. *)
Definition ward : HospitalScheduler.t :=
  HospitalScheduler.addPatient john HospitalScheduler.new.

(** The patient once the heart rate was read as [values], at times
    0, 1, 2, ... *)
Definition john_after (values : list float) : Patient.t :=
  Patient.set_history john HEART_RATE
    (map (fun '(x, k) => heart_rate x (Z.of_nat k))
       (combine values (seq 0 (length values)))).

(** The ward with that patient, the alerts raised meanwhile having been
    handled. *)
Definition ward_after (values : list float) : HospitalScheduler.t :=
  HospitalScheduler.addPatient (john_after values) HospitalScheduler.new.

(** Four rising heart-rate readings above the normal range. *)
Definition ward_rising : HospitalScheduler.t :=
  ward_after [101; 104; 107; 110].

(** A full window: 100 readings of 75. *)
Definition ward_full : HospitalScheduler.t := ward_after (repeat 75 100).

(** A reading for patient 2, who is not registered. *)
Definition stray : VitalReading.t := VitalReading.mk HEART_RATE 200 0 2.

End Scenario.

(** * Properties *)

(** ** Facts on binary64 arithmetic

    The primitive operations are specified by the library through
    [Prim2SF]; the facts below are read off that specification. *)

Module DoubleFacts.

#[local] Open Scope float_scope.

Ltac cmp_cases :=
  repeat match goal with
  | |- context [Z.compare ?a ?b] => destruct (Z.compare_spec a b)
  | H : context [Z.compare ?a ?b] |- _ => destruct (Z.compare_spec a b)
  | |- context [Pos.compare_cont Eq ?a ?b] =>
      change (Pos.compare_cont Eq a b) with (Pos.compare a b);
      destruct (Pos.compare_spec a b)
  | H : context [Pos.compare_cont Eq ?a ?b] |- _ =>
      change (Pos.compare_cont Eq a b) with (Pos.compare a b) in H;
      destruct (Pos.compare_spec a b)
  end.

Ltac order_cases :=
  simpl; try discriminate; try reflexivity;
  cmp_cases; simpl; try discriminate; try reflexivity;
  intros; exfalso; lia.

Lemma SFltb_asym a b : SFltb a b = true -> SFltb b a = false.
Proof.
  unfold SFltb, SFcompare.
  destruct a as [[]|[]| |[] ? ?], b as [[]|[]| |[] ? ?]; order_cases.
Qed.

Lemma SFltb_trans a b c :
  SFltb a b = true -> SFltb b c = true -> SFltb a c = true.
Proof.
  unfold SFltb, SFcompare.
  destruct a as [[]|[]| |[] ? ?], b as [[]|[]| |[] ? ?],
           c as [[]|[]| |[] ? ?]; order_cases.
Qed.

Lemma ltb_asym x y : (x <? y) = true -> (y <? x) = false.
Proof. rewrite !ltb_spec. apply SFltb_asym. Qed.

Lemma ltb_trans x y z :
  (x <? y) = true -> (y <? z) = true -> (x <? z) = true.
Proof. rewrite !ltb_spec. apply SFltb_trans. Qed.

(** Nothing is below [lo] and above [hi] unless [hi] is below [lo]. *)
Lemma ltb_between_false lo hi x :
  (hi <? lo) = false -> (x <? lo) = true -> (hi <? x) = false.
Proof.
  intros Hc Hlo. destruct (hi <? x) eqn:Hhi; [|reflexivity].
  rewrite (ltb_trans _ _ _ Hhi Hlo) in Hc. discriminate.
Qed.

(** Subtraction of a value from itself. *)
Lemma SFsub_diag x :
  SF64sub x x = S754_zero false \/ SF64sub x x = S754_nan.
Proof.
  destruct x as [[]|[]| |s m e]; simpl; auto.
  left. unfold SF64sub, SFsub. rewrite Z.sub_diag. reflexivity.
Qed.

Lemma sub_diag x : x - x = 0 \/ x - x = nan.
Proof.
  destruct (SFsub_diag (Prim2SF x)) as [H | H]; rewrite <- sub_spec in H;
    [left | right]; apply Prim2SF_inj; rewrite H; reflexivity.
Qed.

(** Signs of quotients and of square roots. *)
Lemma SFabs_round_aux s m e l :
  SFabs (binary_round_aux prec emax s m e l)
  = binary_round_aux prec emax false m e l.
Proof.
  unfold binary_round_aux.
  destruct (shr_fexp prec emax m e l) as [mrs' e'].
  destruct (shr_fexp prec emax _ e' loc_Exact) as [mrs'' e''].
  destruct (shr_m mrs''); simpl; try reflexivity.
  destruct (e'' <=? emax - prec)%Z; reflexivity.
Qed.

Lemma SFabs_div x y :
  Double.sign_clear y -> SFabs (SF64div x y) = SF64div (SFabs x) y.
Proof.
  unfold SF64div, SFdiv.
  destruct x as [sx|sx| |sx mx ex], y as [sy|sy| |sy my ey]; simpl;
    intros Hy; subst; try reflexivity.
  destruct (SFdiv_core_binary prec emax (Z.pos mx) ex (Z.pos my) ey)
    as [[mz ez] lz].
  rewrite SFabs_round_aux. reflexivity.
Qed.

Lemma SFsqrt_sign x :
  match SF64sqrt x with
  | S754_zero _ => True
  | y => Double.sign_clear y
  end.
Proof.
  unfold SF64sqrt, SFsqrt.
  destruct x as [s|[]| |[] m e]; simpl; auto.
  destruct (SFsqrt_core_binary prec emax (Z.pos m) e) as [[mz ez] lz].
  unfold binary_round_aux.
  destruct (shr_fexp prec emax mz ez lz) as [mrs' e'].
  destruct (shr_fexp prec emax _ e' loc_Exact) as [mrs'' e''].
  destruct (shr_m mrs''); simpl; auto.
  destruct (e'' <=? emax - prec)%Z; simpl; auto.
Qed.

Lemma abs_div_sqrt a v :
  (sqrt v =? 0) = false -> abs (a / sqrt v) = abs a / sqrt v.
Proof.
  intros Hnz. apply Prim2SF_inj.
  rewrite abs_spec, !div_spec, abs_spec. apply SFabs_div.
  rewrite FloatAxioms.eqb_spec in Hnz.
  pose proof (SFsqrt_sign (Prim2SF v)) as Hs. rewrite <- sqrt_spec in Hs.
  destruct (Prim2SF (sqrt v)) as [s|s| |s m e]; try exact Hs.
  destruct s; discriminate Hnz.
Qed.

End DoubleFacts.


(** ** Risk classification *)

(** C1. A heart-rate reading below 30 or above 180 is classified CRITICAL;
    one strictly between 30 and 50, or strictly between 120 and 180, is
    classified HIGH.  This holds whatever the patient's normal ranges. *)
Theorem assessRisk_heart_rate_bands (p : Patient.t) (reading : VitalReading.t) :
  VitalReading.type reading = HEART_RATE ->
  let value := VitalReading.value reading in
  (((value <? 30) = true \/ (value >? 180) = true ->
    Patient.assessRisk reading p = CRITICAL)
   /\ (((30 <? value) = true /\ (value <? 50) = true)
       \/ ((120 <? value) = true /\ (value <? 180) = true) ->
       Patient.assessRisk reading p = HIGH))%float.
Proof.
  intros Htype value. unfold Patient.assessRisk. rewrite Htype.
  fold value. unfold Double.gtb. split.
  - intros [H | H]; rewrite H; [reflexivity | now rewrite orb_true_r].
  - intros [[Hlo Hhi] | [Hlo Hhi]].
    + rewrite (DoubleFacts.ltb_asym _ _ Hlo).
      rewrite (DoubleFacts.ltb_between_false 50 180 value eq_refl Hhi).
      simpl. now rewrite Hhi.
    + rewrite (DoubleFacts.ltb_asym _ _ Hhi).
      assert (Hnot : (value <? 30)%float = false).
      { destruct (value <? 30)%float eqn:E; [|reflexivity].
        pose proof (DoubleFacts.ltb_trans _ _ _ Hlo E) as Habs.
        vm_compute in Habs. discriminate. }
      rewrite Hnot. simpl. rewrite Hlo. now rewrite orb_true_r.
Qed.

Lemma assessRisk_heart_rate_bands_witness :
  Patient.assessRisk (VitalReading.mk HEART_RATE 200 0 1)
    (Patient.new 1 "John Doe" 45) = CRITICAL
  /\ Patient.assessRisk (VitalReading.mk HEART_RATE 45 0 1)
       (Patient.new 1 "John Doe" 45) = HIGH.
Proof.
  split.
  - apply (assessRisk_heart_rate_bands (Patient.new 1 "John Doe" 45)
             (VitalReading.mk HEART_RATE 200 0 1) eq_refl).
    right. reflexivity.
  - apply (assessRisk_heart_rate_bands (Patient.new 1 "John Doe" 45)
             (VitalReading.mk HEART_RATE 45 0 1) eq_refl).
    left. split; reflexivity.
Defined.

(** ** Trend detection *)

Section Windows.
Context {A : Type}.

Lemma last5_split (l : list A) :
  (5 <= length l)%nat ->
  exists pre a b c d e, l = pre ++ [a; b; c; d; e].
Proof.
  intros Hlen. exists (firstn (length l - 5) l).
  pose proof (length_skipn (length l - 5) l) as Hs.
  destruct (skipn (length l - 5) l) as [|a [|b [|c [|d [|e [|f t]]]]]] eqn:E;
    simpl in Hs; try lia.
  exists a, b, c, d, e. rewrite <- E. symmetry. apply firstn_skipn.
Qed.

Lemma last_n_app_exact (n : nat) (pre l : list A) :
  length l = n -> Spec.last_n n (pre ++ l) = l.
Proof.
  intros <-. unfold Spec.last_n. rewrite length_app.
  replace (length pre + length l - length l)%nat with (length pre + 0)%nat
    by lia.
  rewrite skipn_app.
  rewrite Nat.add_0_r, skipn_all, Nat.sub_diag. reflexivity.
Qed.
End Windows.

Lemma value_at_app (pre l : list VitalReading.t) (k : nat) :
  Patient.value_at (pre ++ l) (length pre + k) = Patient.value_at l k.
Proof.
  unfold Patient.value_at. rewrite map_app.
  rewrite <- (length_map VitalReading.value pre). apply app_nth2_plus.
Qed.

Lemma detectTrend_window (p : Patient.t) (vital : VitalSign) :
  Patient.detectTrend vital p =
    if (length (Patient.vitalHistory p vital) <? 5)%nat then false
    else (abs (Spec.mean_change
                 (map VitalReading.value (Patient.vitalHistory p vital)))
          >? 2)%float.
Proof.
  unfold Patient.detectTrend.
  destruct (length (Patient.vitalHistory p vital) <? 5)%nat eqn:Hlen;
    [reflexivity|].
  apply Nat.ltb_ge in Hlen.
  destruct (last5_split _ Hlen) as (pre & a & b & c & d & e & ->).
  unfold Spec.mean_change. rewrite map_app.
  rewrite last_n_app_exact by reflexivity.
  replace (length (pre ++ [a; b; c; d; e]) - 4)%nat with (length pre + 1)%nat
    by (rewrite length_app; simpl; lia).
  cbn [for_loop].
  replace (length pre + 1 - 1)%nat with (length pre + 0)%nat by lia.
  replace (S (length pre + 1) - 1)%nat with (length pre + 1)%nat by lia.
  replace (S (S (length pre + 1)) - 1)%nat with (length pre + 2)%nat by lia.
  replace (S (S (S (length pre + 1))) - 1)%nat with (length pre + 3)%nat by lia.
  replace (S (length pre + 1))%nat with (length pre + 2)%nat by lia.
  replace (S (length pre + 2))%nat with (length pre + 3)%nat by lia.
  replace (S (length pre + 3))%nat with (length pre + 4)%nat by lia.
  rewrite !value_at_app. reflexivity.
Qed.


(** C2. With fewer than 5 readings in the window [detectTrend] answers
    [false]; with 5 or more it answers whether the absolute value of the
    mean of the four adjacent differences over the last 5 readings
    exceeds 2.  On a window of 5 equal values it answers [false]. *)
Theorem detectTrend_mean_change (p : Patient.t) (vital : VitalSign) :
  let window := map VitalReading.value (Patient.vitalHistory p vital) in
  ((length window < 5)%nat -> Patient.detectTrend vital p = false)
  /\ ((5 <= length window)%nat ->
      Patient.detectTrend vital p = (abs (Spec.mean_change window) >? 2)%float)
  /\ (forall x, window = [x; x; x; x; x] ->
      Patient.detectTrend vital p = false).
Proof.
  intros window.
  assert (Hlen : length (Patient.vitalHistory p vital) = length window)
    by (symmetry; apply length_map).
  rewrite detectTrend_window. fold window. rewrite Hlen. split; [|split].
  - intros Hlt. apply Nat.ltb_lt in Hlt. now rewrite Hlt.
  - intros Hge. apply Nat.ltb_ge in Hge. now rewrite Hge.
  - intros x ->. unfold Spec.mean_change, Spec.last_n, Spec.sum. simpl.
    destruct (DoubleFacts.sub_diag x) as [-> | ->]; reflexivity.
Qed.

Lemma detectTrend_mean_change_witness :
  Patient.detectTrend HEART_RATE
    (Scenario.john_after [101; 104; 107; 110]%float) = false
  /\ Patient.detectTrend HEART_RATE
       (Scenario.john_after [70; 73; 76; 79; 82]%float) = true
  /\ Patient.detectTrend HEART_RATE
       (Scenario.john_after [75; 75; 75; 75; 75]%float) = false.
Proof.
  split; [|split].
  - apply (detectTrend_mean_change
             (Scenario.john_after [101; 104; 107; 110]%float) HEART_RATE).
    simpl. lia.
  - rewrite (proj1 (proj2 (detectTrend_mean_change
                             (Scenario.john_after [70; 73; 76; 79; 82]%float)
                             HEART_RATE))).
    + reflexivity.
    + simpl. lia.
  - apply (proj2 (proj2 (detectTrend_mean_change
                           (Scenario.john_after [75; 75; 75; 75; 75]%float)
                           HEART_RATE)) 75%float).
    reflexivity.
Defined.

(** ** False-alarm suppression *)

Lemma fold_left_map_arg {A B C : Type} (f : A -> B -> A) (g : C -> B)
    (l : list C) (a : A) :
  fold_left (fun acc x => f acc (g x)) l a = fold_left f (map g l) a.
Proof. revert a. induction l as [|x l IH]; intros a; simpl; auto. Qed.

Lemma calculateMean_population (readings : list VitalReading.t) :
  FalseAlarmDetector.calculateMean readings
  = Spec.population_mean (map VitalReading.value readings).
Proof.
  unfold FalseAlarmDetector.calculateMean, Spec.population_mean, Spec.sum.
  rewrite length_map.
  now rewrite (fold_left_map_arg PrimFloat.add VitalReading.value).
Qed.

Lemma calculateStandardDeviation_population {libm : Libm}
    (readings : list VitalReading.t) :
  FalseAlarmDetector.calculateStandardDeviation readings
    (FalseAlarmDetector.calculateMean readings)
  = Spec.population_std pow2 (map VitalReading.value readings).
Proof.
  unfold FalseAlarmDetector.calculateStandardDeviation, Spec.population_std.
  rewrite calculateMean_population.
  unfold Spec.population_mean at 2, Spec.sum. rewrite !length_map.
  rewrite map_map.
  set (mu := Spec.population_mean (map VitalReading.value readings)).
  now rewrite <- (fold_left_map_arg PrimFloat.add
                    (fun r => pow2 (VitalReading.value r - mu)%float)).
Qed.

(** C3. With fewer than 5 recent readings nothing is suppressed.  Otherwise
    the population mean and the population standard deviation of the
    readings are taken; a standard deviation equal to 0 suppresses
    nothing; else the candidate is suppressed exactly when the z-score
    [|latest - mean| / std] of the latest reading is below 2.5 for a
    CRITICAL candidate, below 1.5 for any other.  The deviations are
    squared by [std::pow(x, 2)], and the equation holds whatever that
    returns: for the build in which it is the multiplication [x * x] as
    for the one that calls the library. *)
Theorem isLikelyFalseAlarm_z_score {libm : Libm} (alert : Alert.t)
    (recentReadings : list VitalReading.t) :
  let values := map VitalReading.value recentReadings in
  FalseAlarmDetector.isLikelyFalseAlarm alert recentReadings =
    if (length recentReadings <? 5)%nat then false
    else if (Spec.population_std pow2 values =? 0)%float then false
    else (Spec.z_score pow2 values
          <? Spec.suppression_threshold (Alert.priority alert))%float.
Proof.
  intros values. unfold FalseAlarmDetector.isLikelyFalseAlarm.
  destruct (length recentReadings <? 5)%nat; [reflexivity|].
  rewrite calculateStandardDeviation_population, calculateMean_population.
  fold values.
  destruct (Spec.population_std pow2 values =? 0)%float eqn:Hstd;
    [reflexivity|].
  unfold Spec.z_score, FalseAlarmDetector.back_value. fold values.
  unfold Spec.population_std in *.
  rewrite (DoubleFacts.abs_div_sqrt _ _ Hstd).
  destruct (Alert.priority alert); reflexivity.
Qed.

(** The detector asks the library for the squares of the deviations from
    the mean and for nothing else: two libraries that agree on these give
    the same verdict. *)
Lemma isLikelyFalseAlarm_library (libm1 libm2 : Libm) (alert : Alert.t)
    (recentReadings : list VitalReading.t) :
  (forall reading, In reading recentReadings ->
     let deviation :=
       (VitalReading.value reading
        - FalseAlarmDetector.calculateMean recentReadings)%float in
     @pow2 libm1 deviation = @pow2 libm2 deviation) ->
  @FalseAlarmDetector.isLikelyFalseAlarm libm1 alert recentReadings
  = @FalseAlarmDetector.isLikelyFalseAlarm libm2 alert recentReadings.
Proof.
  intros Hagree. unfold FalseAlarmDetector.isLikelyFalseAlarm.
  set (mean := FalseAlarmDetector.calculateMean recentReadings) in *.
  assert (Hstd : @FalseAlarmDetector.calculateStandardDeviation libm1
                   recentReadings mean
                 = @FalseAlarmDetector.calculateStandardDeviation libm2
                     recentReadings mean).
  { unfold FalseAlarmDetector.calculateStandardDeviation. do 2 f_equal.
    clearbody mean. generalize 0%float as variance.
    induction recentReadings as [|r readings IH]; intros variance;
      [reflexivity|].
    cbn [fold_left]. rewrite (Hagree r (or_introl eq_refl)).
    apply IH. intros reading Hin. apply Hagree. now right. }
  now rewrite Hstd.
Qed.

(** ** The alert queue

    What follows from the contract of the queue for a comparison that is
    a strict weak ordering, as [AlertComparator] is. *)

Section QueueFacts.
Context {A : Type} (comp : A -> A -> bool).
Hypothesis comp_asym : forall a b, comp a b = true -> comp b a = false.
Hypothesis comp_negtrans :
  forall a b c, comp a b = false -> comp b c = false -> comp a c = false.

Import PriorityQueue.

Lemma comp_irrefl a : comp a a = false.
Proof using comp_asym.
  destruct (comp a a) eqn:E; [|reflexivity].
  now rewrite (comp_asym _ _ E) in E.
Qed.

Lemma select_perm a rest :
  Permutation (a :: rest)
    (fst (select comp a rest) :: snd (select comp a rest)).
Proof using Type.
  revert a. induction rest as [|b rest IH]; intros a; simpl.
  - reflexivity.
  - specialize (IH b). destruct (select comp b rest) as [m others].
    simpl in IH. destruct (comp a m); simpl.
    + rewrite IH. apply perm_swap.
    + reflexivity.
Qed.

Lemma select_top a rest : is_top comp (a :: rest) (fst (select comp a rest)).
Proof using comp_asym comp_negtrans.
  revert a. induction rest as [|b rest IH]; intros a; simpl.
  - split; [now left|]. intros x [<- | []]. apply comp_irrefl.
  - destruct (IH b) as [Hin Hmax].
    destruct (select comp b rest) as [m others]. simpl in *.
    destruct (comp a m) eqn:E; simpl.
    + split; [now right|]. intros x [<- | Hx]; auto.
    + split; [now left|]. intros x [<- | Hx]; [apply comp_irrefl|].
      eapply comp_negtrans; eauto.
Qed.

Lemma serves_perm q out : serves comp q out -> Permutation q out.
Proof using Type.
  induction 1 as [|q a q' out _ Hperm _ IH]; [reflexivity|].
  rewrite Hperm. now constructor.
Qed.

Lemma serves_sorted q out :
  serves comp q out -> StronglySorted (fun a b => comp a b = false) out.
Proof using Type.
  induction 1 as [|q a q' out [_ Hmax] Hperm Hs IH]; constructor; auto.
  apply List.Forall_forall. intros b Hb. apply Hmax.
  eapply Permutation_in; [symmetry; exact Hperm|]. right.
  eapply Permutation_in; [symmetry; apply serves_perm; exact Hs|]. exact Hb.
Qed.

Lemma drain_serves q : serves comp q (drain comp (length q) q).
Proof using comp_asym comp_negtrans.
  remember (length q) as n eqn:Hn. revert q Hn.
  induction n as [|n IH]; intros q Hn.
  - destruct q; [constructor | discriminate].
  - destruct q as [|a rest]; [discriminate|]. simpl.
    pose proof (select_perm a rest) as Hperm.
    econstructor; [apply select_top | exact Hperm |].
    apply IH. apply Permutation_length in Hperm. simpl in *. lia.
Qed.
End QueueFacts.

Lemma priority_value_inj a b : priority_value a = priority_value b -> a = b.
Proof. destruct a, b; simpl; intros; congruence || lia. Qed.

Lemma AlertComparator_false a b :
  AlertComparator a b = false <-> Spec.dispatch_le a b.
Proof.
  unfold AlertComparator, Spec.dispatch_le, Priority_eqb.
  destruct (Z.eqb_spec (priority_value (Alert.priority a))
              (priority_value (Alert.priority b))) as [E | E]; simpl.
  - rewrite Z.gtb_ltb, Z.ltb_ge. apply priority_value_inj in E.
    split; [intros; right; auto |].
    intros [H | [_ H]]; [rewrite E in H; lia | auto].
  - rewrite Z.gtb_ltb, Z.ltb_ge. split.
    + intros H. left. lia.
    + intros [H | [H _]]; [lia | now rewrite H in E].
Qed.

Lemma AlertComparator_asym a b :
  AlertComparator a b = true -> AlertComparator b a = false.
Proof.
  intros H. apply AlertComparator_false.
  destruct (AlertComparator b a) eqn:E.
  - exfalso. revert H E. unfold AlertComparator, Priority_eqb.
    rewrite (Z.eqb_sym (priority_value (Alert.priority b))).
    destruct (_ =? _); simpl; rewrite !Z.gtb_ltb, !Z.ltb_lt; lia.
  - now apply AlertComparator_false.
Qed.

Lemma AlertComparator_negtrans a b c :
  AlertComparator a b = false -> AlertComparator b c = false ->
  AlertComparator a c = false.
Proof.
  rewrite !AlertComparator_false. unfold Spec.dispatch_le.
  intros [H1 | [H1 H1']] [H2 | [H2 H2']].
  - left; lia.
  - left. rewrite <- H2. exact H1.
  - left. rewrite H1. exact H2.
  - right. split; [congruence | lia].
Qed.

(** ** The alert processor *)

Lemma addAlerts_queue (alerts : list Alert.t) (ap : AlertProcessor.t) :
  let ap' := fold_left (fun ap alert => AlertProcessor.addAlert alert ap)
               alerts ap in
  AlertProcessor.alertQueue ap' = AlertProcessor.alertQueue ap ++ alerts
  /\ AlertProcessor.totalAlertsProcessed ap'
     = AlertProcessor.totalAlertsProcessed ap
  /\ AlertProcessor.falseAlarmsFiltered ap'
     = AlertProcessor.falseAlarmsFiltered ap.
Proof.
  revert ap. induction alerts as [|a alerts IH]; intros ap; simpl.
  - now rewrite app_nil_r.
  - destruct (IH (AlertProcessor.addAlert a ap)) as (Hq & Ht & Hf).
    rewrite Hq, Ht, Hf. simpl. unfold PriorityQueue.push.
    now rewrite <- app_assoc.
Qed.

Lemma processAllAlerts_loop_drain (fuel : nat) (clock : nat -> Z) (k : nat)
    (ap : AlertProcessor.t) :
  (length (AlertProcessor.alertQueue ap) <= fuel)%nat ->
  AlertProcessor.processAllAlerts_loop fuel clock k ap =
    Some ({| AlertProcessor.alertQueue := [];
             AlertProcessor.totalAlertsProcessed :=
               AlertProcessor.totalAlertsProcessed ap
               + Z.of_nat (length (AlertProcessor.alertQueue ap));
             AlertProcessor.falseAlarmsFiltered :=
               AlertProcessor.falseAlarmsFiltered ap |},
          Spec.handled_in_turn clock k
            (PriorityQueue.drain AlertComparator
               (length (AlertProcessor.alertQueue ap))
               (AlertProcessor.alertQueue ap))).
Proof.
  revert k ap. induction fuel as [|fuel IH]; intros k [q total filtered];
    simpl; intros Hlen.
  - destruct q; [|simpl in Hlen; lia]. simpl. now rewrite Z.add_0_r.
  - destruct q as [|a rest]; simpl; [now rewrite Z.add_0_r|].
    unfold AlertProcessor.processNextAlert. simpl.
    pose proof (select_perm AlertComparator a rest) as Hperm.
    apply Permutation_length in Hperm. simpl in Hperm, Hlen.
    rewrite IH by (simpl; lia). simpl.
    replace (length (snd (PriorityQueue.select AlertComparator a rest)))
      with (length rest) by lia.
    do 3 f_equal. lia.
Qed.

Lemma StronglySorted_dispatch (l : list Alert.t) :
  StronglySorted (fun a b => AlertComparator a b = false) l ->
  StronglySorted Spec.dispatch_le l.
Proof.
  induction 1 as [|a l _ IH Hall]; constructor; auto.
  eapply List.Forall_impl; [|exact Hall].
  intros b. apply AlertComparator_false.
Qed.

Lemma dispatch_le_total a b : Spec.dispatch_le a b \/ Spec.dispatch_le b a.
Proof.
  unfold Spec.dispatch_le.
  destruct (Z.lt_trichotomy (priority_value (Alert.priority a))
              (priority_value (Alert.priority b))) as [H | [H | H]]; auto.
  apply priority_value_inj in H.
  destruct (Z.le_ge_cases (Alert.createdAt a) (Alert.createdAt b)); auto.
Qed.

Lemma sorted_three (x y z : Alert.t) :
  StronglySorted Spec.dispatch_le [x; y; z] ->
  Spec.dispatch_le x y /\ Spec.dispatch_le x z /\ Spec.dispatch_le y z.
Proof.
  intros H. apply StronglySorted_inv in H as [H Hx].
  apply StronglySorted_inv in H as [_ Hy].
  inversion Hx as [|? ? Hxy Hx']. inversion Hx' as [|? ? Hxz _].
  inversion Hy as [|? ? Hyz _]. auto.
Qed.

(** Three alerts {HIGH, t=1}, {CRITICAL, t=2}, {CRITICAL, t=0} leave any
    queue that meets the contract in one order only, however they were
    put in. *)
Lemma three_alerts_order (h c2 c0 : Alert.t) (queue order : list Alert.t) :
  Alert.priority h = HIGH -> Alert.createdAt h = 1 ->
  Alert.priority c2 = CRITICAL -> Alert.createdAt c2 = 2 ->
  Alert.priority c0 = CRITICAL -> Alert.createdAt c0 = 0 ->
  Permutation [h; c2; c0] queue ->
  PriorityQueue.serves AlertComparator queue order ->
  order = [c0; c2; h].
Proof.
  intros Hh Hht Hc2 Hc2t Hc0 Hc0t Hperm Hserves.
  assert (Hall : Permutation [h; c2; c0] order)
    by (rewrite Hperm; eapply serves_perm; exact Hserves).
  assert (Hsorted : StronglySorted Spec.dispatch_le order)
    by (apply StronglySorted_dispatch; eapply serves_sorted; exact Hserves).
  pose proof (Permutation_length Hall) as Hlen.
  destruct order as [|x [|y [|z [|]]]]; try discriminate Hlen.
  apply sorted_three in Hsorted as (Hxy & Hxz & Hyz).
  assert (Hx : In x [h; c2; c0])
    by (eapply Permutation_in; [symmetry; exact Hall | now left]).
  assert (Hy : In y [h; c2; c0])
    by (eapply Permutation_in; [symmetry; exact Hall | right; now left]).
  assert (Hz : In z [h; c2; c0])
    by (eapply Permutation_in; [symmetry; exact Hall | do 2 right; now left]).
  assert (Hnodup : List.NoDup [x; y; z]).
  { eapply Permutation_NoDup; [exact Hall|].
    repeat constructor; simpl; intuition congruence. }
  unfold Spec.dispatch_le in Hxy, Hxz, Hyz.
  simpl in Hx, Hy, Hz.
  destruct Hx as [<- | [<- | [<- | []]]], Hy as [<- | [<- | [<- | []]]],
           Hz as [<- | [<- | [<- | []]]];
    try reflexivity;
    try (exfalso; inversion Hnodup as [|? ? Hnin Hnodup']; subst;
         inversion Hnodup' as [|? ? Hnin' _]; subst;
         simpl in Hnin, Hnin'; tauto);
    exfalso;
    rewrite ?Hh, ?Hht, ?Hc2, ?Hc2t, ?Hc0, ?Hc0t in *; simpl in *;
    intuition (discriminate || lia).
Qed.

(** C4. Alerts leave the queue by priority, CRITICAL first, and by
    creation time, earliest first, among those of one priority; this
    order compares any two alerts.  Whatever alerts are added, and in
    whatever order, [processAllAlerts] handles each of them once, in an
    order sorted by (priority, createdAt), and leaves the queue empty; the
    same holds of every queue that meets the contract of
    [std::priority_queue] under [AlertComparator].  Alerts {HIGH, t=1},
    {CRITICAL, t=2}, {CRITICAL, t=0} leave as {CRITICAL, t=0},
    {CRITICAL, t=2}, {HIGH, t=1}. *)
Theorem alertQueue_dequeue_order :
  (forall a b, Spec.dispatch_le a b \/ Spec.dispatch_le b a)
  /\ (forall (alerts : list Alert.t) (clock : nat -> Z),
        let ap := fold_left (fun ap alert => AlertProcessor.addAlert alert ap)
                    alerts AlertProcessor.new in
        let order := PriorityQueue.drain AlertComparator (length alerts)
                       (AlertProcessor.alertQueue ap) in
        Permutation alerts order
        /\ StronglySorted Spec.dispatch_le order
        /\ AlertProcessor.processAllAlerts clock ap =
             Some ({| AlertProcessor.alertQueue := [];
                      AlertProcessor.totalAlertsProcessed :=
                        Z.of_nat (length alerts);
                      AlertProcessor.falseAlarmsFiltered := 0 |},
                   Spec.handled_in_turn clock 0 order))
  /\ (forall queue order : list Alert.t,
        PriorityQueue.serves AlertComparator queue order ->
        Permutation queue order /\ StronglySorted Spec.dispatch_le order)
  /\ (forall h c2 c0 : Alert.t,
        Alert.priority h = HIGH -> Alert.createdAt h = 1 ->
        Alert.priority c2 = CRITICAL -> Alert.createdAt c2 = 2 ->
        Alert.priority c0 = CRITICAL -> Alert.createdAt c0 = 0 ->
        (forall queue order,
           Permutation [h; c2; c0] queue ->
           PriorityQueue.serves AlertComparator queue order ->
           order = [c0; c2; h])
        /\ PriorityQueue.drain AlertComparator 3
             (PriorityQueue.push c0
                (PriorityQueue.push c2 (PriorityQueue.push h [])))
           = [c0; c2; h]).
Proof.
  split; [exact dispatch_le_total|]. split; [|split].
  - intros alerts clock ap order.
    destruct (addAlerts_queue alerts AlertProcessor.new) as (Hq & Ht & Hf).
    fold ap in Hq, Ht, Hf. simpl in Hq, Ht, Hf.
    assert (Hserves : PriorityQueue.serves AlertComparator alerts order).
    { unfold order. rewrite Hq.
      apply drain_serves;
        [exact AlertComparator_asym | exact AlertComparator_negtrans]. }
    split; [eapply serves_perm; exact Hserves|].
    split.
    { apply StronglySorted_dispatch. eapply serves_sorted. exact Hserves. }
    unfold AlertProcessor.processAllAlerts.
    rewrite processAllAlerts_loop_drain by lia.
    rewrite Ht, Hf. unfold order. rewrite Hq. reflexivity.
  - intros queue order Hserves. split.
    + eapply serves_perm; exact Hserves.
    + apply StronglySorted_dispatch. eapply serves_sorted; exact Hserves.
  - intros h c2 c0 Hh Hht Hc2 Hc2t Hc0 Hc0t. split.
    + intros queue order. now apply three_alerts_order.
    + apply (three_alerts_order h c2 c0 [h; c2; c0]); auto.
      apply (drain_serves AlertComparator AlertComparator_asym
               AlertComparator_negtrans [h; c2; c0]).
Qed.

Lemma alertQueue_dequeue_order_witness :
  PriorityQueue.drain AlertComparator 3
    [Alert.new 1 7 HIGH "high" HEART_RATE;
     Alert.new 2 8 CRITICAL "late" HEART_RATE;
     Alert.new 0 9 CRITICAL "early" TEMPERATURE]
  = [Alert.new 0 9 CRITICAL "early" TEMPERATURE;
     Alert.new 2 8 CRITICAL "late" HEART_RATE;
     Alert.new 1 7 HIGH "high" HEART_RATE].
Proof.
  exact (proj2 (proj2 (proj2 (proj2 alertQueue_dequeue_order))
                 (Alert.new 1 7 HIGH "high" HEART_RATE)
                 (Alert.new 2 8 CRITICAL "late" HEART_RATE)
                 (Alert.new 0 9 CRITICAL "early" TEMPERATURE)
                 eq_refl eq_refl eq_refl eq_refl eq_refl eq_refl)).
Defined.

(** C8. Compliance with the response-time requirement is decided from the
    whole milliseconds elapsed between the creation of the alert and its
    handling: within 2000 ms for CRITICAL, 30000 ms for HIGH, 300000 ms for
    MEDIUM and 3600000 ms for LOW.  The line written for a dequeued alert
    carries that verdict.  A CRITICAL alert handled 3000 ms after its
    creation is late, one handled after 1500 ms is in time. *)
Theorem checkResponseTimeRequirement_budgets :
  (forall ms,
     (AlertProcessor.checkResponseTimeRequirement CRITICAL ms = true
      <-> ms <= 2000)
     /\ (AlertProcessor.checkResponseTimeRequirement HIGH ms = true
         <-> ms <= 30000)
     /\ (AlertProcessor.checkResponseTimeRequirement MEDIUM ms = true
         <-> ms <= 300000)
     /\ (AlertProcessor.checkResponseTimeRequirement LOW ms = true
         <-> ms <= 3600000))
  /\ (forall now ap alert,
        PriorityQueue.top AlertComparator (AlertProcessor.alertQueue ap)
          = Some alert ->
        let elapsed :=
          AlertProcessor.duration_cast_ms (now - Alert.createdAt alert) in
        exists handler,
          snd (AlertProcessor.processNextAlert now ap) =
            [AlertLine (Alert.priority alert) (Alert.patientId alert)
               (Alert.message alert) elapsed
               (AlertProcessor.checkResponseTimeRequirement
                  (Alert.priority alert) elapsed);
             handler])
  /\ (forall created pid msg vital,
        let alert := Alert.new created pid CRITICAL msg vital in
        let ms := AlertProcessor.ticks_per_ms in
        AlertProcessor.handleAlert (created + 3000 * ms) alert
          = [AlertLine CRITICAL pid msg 3000 false;
             AlertProcessor.handleCriticalAlert]
        /\ AlertProcessor.handleAlert (created + 1500 * ms) alert
          = [AlertLine CRITICAL pid msg 1500 true;
             AlertProcessor.handleCriticalAlert]).
Proof.
  split; [|split].
  - intros ms. simpl. rewrite !Z.leb_le. tauto.
  - intros now ap alert Htop elapsed.
    unfold AlertProcessor.processNextAlert. rewrite Htop. simpl.
    eexists. reflexivity.
  - intros created pid msg vital alert ms.
    unfold AlertProcessor.handleAlert, AlertProcessor.duration_cast_ms.
    simpl Alert.createdAt.
    replace (created + 3000 * ms - created) with (3000 * ms) by lia.
    replace (created + 1500 * ms - created) with (1500 * ms) by lia.
    split; reflexivity.
Qed.

Lemma checkResponseTimeRequirement_budgets_witness :
  exists handler,
    snd (AlertProcessor.processNextAlert 2500000000
           (AlertProcessor.addAlert
              (Alert.new 0 1 CRITICAL "late" HEART_RATE) AlertProcessor.new))
    = [AlertLine CRITICAL 1 "late" 2500 false; handler].
Proof.
  exact (proj1 (proj2 checkResponseTimeRequirement_budgets) 2500000000
           (AlertProcessor.addAlert
              (Alert.new 0 1 CRITICAL "late" HEART_RATE) AlertProcessor.new)
           (Alert.new 0 1 CRITICAL "late" HEART_RATE) eq_refl).
Defined.

(** ** History windows *)

Section LastN.
Context {A : Type}.

Lemma last_n_short (n : nat) (l : list A) :
  (length l <= n)%nat -> Spec.last_n n l = l.
Proof.
  intros H. unfold Spec.last_n.
  now replace (length l - n)%nat with 0%nat by lia.
Qed.

Lemma last_n_length (n : nat) (l : list A) :
  length (Spec.last_n n l) = Nat.min n (length l).
Proof. unfold Spec.last_n. rewrite length_skipn. lia. Qed.

Lemma last_n_app_last_n (n : nat) (a b : list A) :
  Spec.last_n n (Spec.last_n n a ++ b) = Spec.last_n n (a ++ b).
Proof.
  destruct (Nat.le_gt_cases (length a) n) as [Hle | Hgt].
  - now rewrite (last_n_short n a).
  - unfold Spec.last_n at 1 3. rewrite !length_app, last_n_length.
    rewrite !skipn_app, last_n_length.
    unfold Spec.last_n. rewrite skipn_skipn. f_equal; f_equal; lia.
Qed.

(** Appending to a window of at most [n] entries and dropping the first
    entry on overflow keeps the last [n] entries. *)
Lemma push_evict_last_n (n : nat) (h : list A) (x : A) :
  (length h <= n)%nat ->
  (let pushed := h ++ [x] in
   if (n <? length pushed)%nat then tl pushed else pushed)
  = Spec.last_n n (h ++ [x]).
Proof.
  intros Hlen. cbv zeta. unfold Spec.last_n. rewrite length_app. simpl.
  destruct (n <? length h + 1)%nat eqn:E.
  - apply Nat.ltb_lt in E.
    replace (length h + 1 - n)%nat with 1%nat by lia.
    now destruct h.
  - apply Nat.ltb_ge in E.
    now replace (length h + 1 - n)%nat with 0%nat by lia.
Qed.
End LastN.

Lemma VitalSign_eqb_eq a b : VitalSign_eqb a b = true <-> a = b.
Proof. destruct a, b; simpl; split; congruence. Qed.

Lemma addVitalReading_window (reading : VitalReading.t) (p : Patient.t)
    (vital : VitalSign) :
  (length (Patient.vitalHistory p vital) <= 100)%nat ->
  Patient.vitalHistory (Patient.addVitalReading reading p) vital =
    if VitalSign_eqb (VitalReading.type reading) vital
    then Spec.last_n 100 (Patient.vitalHistory p vital ++ [reading])
    else Patient.vitalHistory p vital.
Proof.
  intros Hlen. unfold Patient.addVitalReading. simpl.
  destruct (VitalSign_eqb vital (VitalReading.type reading)) eqn:E.
  - apply VitalSign_eqb_eq in E. subst vital.
    rewrite (proj2 (VitalSign_eqb_eq _ _) eq_refl).
    now apply (push_evict_last_n 100).
  - destruct (VitalSign_eqb (VitalReading.type reading) vital) eqn:E';
      [|reflexivity].
    apply VitalSign_eqb_eq in E'. subst vital.
    now rewrite (proj2 (VitalSign_eqb_eq _ _) eq_refl) in E.
Qed.

(** One reading more: a window of 100 loses its oldest reading, a
    shorter one loses nothing; the other windows are untouched. *)
Lemma addVitalReading_fifo (reading : VitalReading.t) (p : Patient.t) :
  let vital := VitalReading.type reading in
  let window := Patient.vitalHistory p vital in
  let window' :=
    Patient.vitalHistory (Patient.addVitalReading reading p) vital in
  ((length window < 100)%nat -> window' = window ++ [reading])
  /\ (length window = 100%nat -> window' = tl window ++ [reading])
  /\ (forall other, other <> vital ->
        Patient.vitalHistory (Patient.addVitalReading reading p) other
        = Patient.vitalHistory p other).
Proof.
  intros vital window window'. unfold window', Patient.addVitalReading.
  fold vital. fold window. simpl.
  rewrite (proj2 (VitalSign_eqb_eq vital vital) eq_refl), length_app.
  simpl. split; [|split].
  - intros Hlt.
    now replace (100 <? length window + 1)%nat with false
      by (symmetry; apply Nat.ltb_ge; lia).
  - intros Hfull.
    replace (100 <? length window + 1)%nat with true
      by (symmetry; apply Nat.ltb_lt; lia).
    destruct window; [discriminate Hfull | reflexivity].
  - intros other Hother.
    destruct (VitalSign_eqb other vital) eqn:E; [|reflexivity].
    now apply VitalSign_eqb_eq in E.
Qed.

(** ** The scheduler *)

(** What [processVitalReading] does to the record of a registered
    patient: the reading is appended when it is for this patient, nothing
    else changes. *)
Lemma processVitalReading_patient {libm : Libm} (now_alert now_trend : Z)
    (reading : VitalReading.t) (hs : HospitalScheduler.t) (pid : Z)
    (p : Patient.t) :
  HospitalScheduler.patients hs !! pid = Some p ->
  HospitalScheduler.patients
    (fst (HospitalScheduler.processVitalReading now_alert now_trend reading hs))
    !! pid
  = Some (if VitalReading.patientId reading =? pid
          then Patient.addVitalReading reading p else p).
Proof.
  intros Hp. unfold HospitalScheduler.processVitalReading.
  destruct (Z.eqb_spec (VitalReading.patientId reading) pid) as [-> | Hne].
  - rewrite Hp.
    destruct (negb (Priority_eqb _ LOW));
      [destruct (negb (FalseAlarmDetector.isLikelyFalseAlarm _ _))|];
      simpl; apply lookup_insert_eq.
  - destruct (HospitalScheduler.patients hs !! VitalReading.patientId reading)
      as [p0|]; [|exact Hp].
    destruct (negb (Priority_eqb _ LOW));
      [destruct (negb (FalseAlarmDetector.isLikelyFalseAlarm _ _))|];
      simpl; rewrite lookup_insert_ne by exact Hne; exact Hp.
Qed.

Lemma processVitalReading_unregistered {libm : Libm} (now_alert now_trend : Z)
    (reading : VitalReading.t) (hs : HospitalScheduler.t) :
  HospitalScheduler.patients hs !! VitalReading.patientId reading = None ->
  HospitalScheduler.processVitalReading now_alert now_trend reading hs
  = (hs, []).
Proof.
  intros Hnone. unfold HospitalScheduler.processVitalReading.
  now rewrite Hnone.
Qed.

Lemma processVitalReadings_cons {libm : Libm} (now_alert now_trend : Z)
    (reading : VitalReading.t) (calls : list (Z * Z * VitalReading.t))
    (hs : HospitalScheduler.t) :
  fst (HospitalScheduler.processVitalReadings
         ((now_alert, now_trend, reading) :: calls) hs)
  = fst (HospitalScheduler.processVitalReadings calls
           (fst (HospitalScheduler.processVitalReading now_alert now_trend
                   reading hs))).
Proof.
  simpl.
  destruct (HospitalScheduler.processVitalReading _ _ _ _) as [hs' out].
  simpl fst.
  destruct (HospitalScheduler.processVitalReadings calls hs') as [hs'' out'].
  reflexivity.
Qed.

Lemma processVitalReading_lookup {libm : Libm} (now_alert now_trend : Z)
    (reading : VitalReading.t) (hs : HospitalScheduler.t) (pid : Z) :
  HospitalScheduler.patients
    (fst (HospitalScheduler.processVitalReading now_alert now_trend reading hs))
    !! pid
  = (fun p => if VitalReading.patientId reading =? pid
              then Patient.addVitalReading reading p else p)
      <$> (HospitalScheduler.patients hs !! pid).
Proof.
  destruct (HospitalScheduler.patients hs !! pid) as [p|] eqn:Hp.
  - now apply processVitalReading_patient.
  - simpl. unfold HospitalScheduler.processVitalReading.
    destruct (HospitalScheduler.patients hs !! VitalReading.patientId reading)
      as [p0|] eqn:Hp0; [|exact Hp].
    assert (Hne : VitalReading.patientId reading <> pid) by congruence.
    destruct (negb (Priority_eqb _ LOW));
      [destruct (negb (FalseAlarmDetector.isLikelyFalseAlarm _ _))|];
      simpl; rewrite lookup_insert_ne by exact Hne; exact Hp.
Qed.

(** What holds of a newly constructed patient and is kept by
    [addVitalReading] holds of every patient throughout the simulation. *)
Lemma run_all_patients {libm : Libm} (P : Patient.t -> Prop) :
  (forall id name age, P (Patient.new id name age)) ->
  (forall reading p, P p -> P (Patient.addVitalReading reading p)) ->
  forall steps, Simulation.all_patients P (Simulation.run steps).
Proof.
  intros Hnew Hadd steps. unfold Simulation.run.
  assert (Hinit : Simulation.all_patients P HospitalScheduler.new)
    by (intros pid p Hp; discriminate Hp).
  revert Hinit. generalize HospitalScheduler.new.
  induction steps as [|s steps IH]; intros hs Hinv; [exact Hinv|].
  simpl. apply IH. intros pid p.
  destruct s as [id name age|na nt r|clock]; simpl.
  - rewrite lookup_insert. unfold Patient.getId. simpl.
    case_decide; [intros [= <-]; apply Hnew | apply Hinv].
  - rewrite processVitalReading_lookup.
    destruct (HospitalScheduler.patients hs !! pid) as [p0|] eqn:Hp0;
      simpl; [|discriminate].
    intros [= <-]. destruct (_ =? _); [apply Hadd|]; eapply Hinv; eauto.
  - destruct (AlertProcessor.processAllAlerts _ _) as [[ap out]|]; apply Hinv.
Qed.

Lemma vitalHistory_window_stream {libm : Libm}
    (calls : list (Z * Z * VitalReading.t))
    (hs : HospitalScheduler.t) (pid : Z) (p : Patient.t) (vital : VitalSign) :
  HospitalScheduler.patients hs !! pid = Some p ->
  (length (Patient.vitalHistory p vital) <= 100)%nat ->
  exists p',
    HospitalScheduler.patients
      (fst (HospitalScheduler.processVitalReadings calls hs)) !! pid = Some p'
    /\ Patient.vitalHistory p' vital
       = Spec.last_n 100
           (Patient.vitalHistory p vital ++ Spec.readings_for pid vital calls)
    /\ (length (Patient.vitalHistory p' vital) <= 100)%nat.
Proof.
  revert hs p. induction calls as [|[[now_alert now_trend] reading] calls IH];
    intros hs p Hp Hlen.
  - exists p. simpl. rewrite app_nil_r, last_n_short by exact Hlen. auto.
  - rewrite processVitalReadings_cons.
    pose proof (processVitalReading_patient now_alert now_trend reading hs
                  pid p Hp) as Hp1.
    set (p1 := if VitalReading.patientId reading =? pid
               then Patient.addVitalReading reading p else p) in Hp1.
    assert (Hw1 : Patient.vitalHistory p1 vital
                  = Spec.last_n 100
                      (Patient.vitalHistory p vital
                         ++ Spec.readings_for pid vital
                              [(now_alert, now_trend, reading)])).
    { unfold p1, Spec.readings_for. cbn [map snd List.filter].
      destruct (VitalReading.patientId reading =? pid); cbn [andb].
      - rewrite addVitalReading_window by exact Hlen.
        destruct (VitalSign_eqb (VitalReading.type reading) vital);
          [reflexivity|].
        now rewrite app_nil_r, last_n_short.
      - now rewrite app_nil_r, last_n_short. }
    assert (Hlen1 : (length (Patient.vitalHistory p1 vital) <= 100)%nat).
    { rewrite Hw1, last_n_length. lia. }
    destruct (IH _ p1 Hp1 Hlen1) as (p' & Hp' & Hw' & Hlen').
    exists p'. split; [exact Hp'|]. split; [|exact Hlen'].
    rewrite Hw', Hw1, last_n_app_last_n, <- app_assoc. f_equal. f_equal.
    unfold Spec.readings_for. cbn [map snd List.filter].
    destruct (_ && _); reflexivity.
Qed.

(** C7. The window of a patient and vital never holds more than 100
    readings, at any point of the simulation.  After any stream of calls
    it is made of the latest 100 of the readings it held and those that
    came in for this patient and vital, in order of arrival: the oldest
    ones are gone, the order of the others is kept. *)
Theorem vitalHistory_window {libm : Libm} :
  (forall steps,
     Simulation.all_patients
       (fun p => forall vital,
          (length (Patient.vitalHistory p vital) <= 100)%nat)
       (Simulation.run steps))
  /\ (forall (calls : list (Z * Z * VitalReading.t))
        (hs : HospitalScheduler.t) (pid : Z) (p : Patient.t)
        (vital : VitalSign),
        HospitalScheduler.patients hs !! pid = Some p ->
        (length (Patient.vitalHistory p vital) <= 100)%nat ->
        exists p',
          HospitalScheduler.patients
            (fst (HospitalScheduler.processVitalReadings calls hs)) !! pid
            = Some p'
          /\ Patient.vitalHistory p' vital
             = Spec.last_n 100
                 (Patient.vitalHistory p vital
                    ++ Spec.readings_for pid vital calls)
          /\ (length (Patient.vitalHistory p' vital) <= 100)%nat).
Proof.
  split; [|exact vitalHistory_window_stream].
  apply run_all_patients.
  - intros id name age vital. simpl. lia.
  - intros reading p Hp vital.
    rewrite addVitalReading_window by apply Hp.
    destruct (VitalSign_eqb _ _); [rewrite last_n_length; lia | apply Hp].
Qed.

Lemma vitalHistory_window_witness :
  exists p',
    HospitalScheduler.patients
      (fst (HospitalScheduler.processVitalReadings
              [(0, 0, Scenario.heart_rate 80 100)] Scenario.ward_full))
      !! 1 = Some p'
    /\ Patient.vitalHistory p' HEART_RATE
       = map (fun k => Scenario.heart_rate 75 (Z.of_nat k)) (seq 1 99)
           ++ [Scenario.heart_rate 80 100]
    /\ (length (Patient.vitalHistory p' HEART_RATE) <= 100)%nat.
Proof.
  destruct (proj2 vitalHistory_window [(0, 0, Scenario.heart_rate 80 100)]
              Scenario.ward_full 1
              (Scenario.john_after (repeat 75%float 100))
              HEART_RATE)
    as (p' & Hp' & Hw & Hlen).
  - reflexivity.
  - apply Nat.leb_le. reflexivity.
  - exists p'. split; [exact Hp'|]. split; [|exact Hlen].
    rewrite Hw. reflexivity.
Defined.

(** No call of [processVitalReading] changes the counters of the alert
    processor. *)
Lemma processVitalReading_counters {libm : Libm} (now_alert now_trend : Z)
    (reading : VitalReading.t) (hs : HospitalScheduler.t) :
  let ap := HospitalScheduler.alertProcessor hs in
  let ap' :=
    HospitalScheduler.alertProcessor
      (fst (HospitalScheduler.processVitalReading now_alert now_trend
              reading hs)) in
  AlertProcessor.getTotalAlertsProcessed ap'
    = AlertProcessor.getTotalAlertsProcessed ap
  /\ AlertProcessor.getFalseAlarmsFiltered ap'
     = AlertProcessor.getFalseAlarmsFiltered ap.
Proof.
  unfold HospitalScheduler.processVitalReading.
  destruct (HospitalScheduler.patients hs !! VitalReading.patientId reading);
    [|split; reflexivity].
  destruct (negb (Priority_eqb _ LOW));
    [destruct (negb (FalseAlarmDetector.isLikelyFalseAlarm _ _))|];
    destruct (Patient.detectTrend _ _); split; reflexivity.
Qed.

(** ** Suppressed candidates *)

(** C5, as the program has it.  When the reading of a registered patient
    classifies above LOW and its candidate alert is judged a false alarm,
    the candidate is not added to the queue and the "[FALSE ALARM
    FILTERED]" line is the only one written.  The queue still grows by the
    separate MEDIUM trend alert when [detectTrend] holds on the updated
    window, and by nothing otherwise. *)
Theorem suppressed_candidate_not_enqueued {libm : Libm}
    (now_alert now_trend : Z)
    (reading : VitalReading.t) (hs : HospitalScheduler.t) (p : Patient.t) :
  let pid := VitalReading.patientId reading in
  let vital := VitalReading.type reading in
  let patient := Patient.addVitalReading reading p in
  let risk := Patient.assessRisk reading patient in
  let message := HospitalScheduler.generateAlertMessage reading risk in
  let candidate := Alert.new now_alert pid risk message vital in
  let trendAlert :=
    Alert.new now_trend pid MEDIUM
      ("Concerning trend detected in "
         ++ HospitalScheduler.vitalSignToString vital) vital in
  let result :=
    HospitalScheduler.processVitalReading now_alert now_trend reading hs in
  HospitalScheduler.patients hs !! pid = Some p ->
  risk <> LOW ->
  FalseAlarmDetector.isLikelyFalseAlarm candidate
    (Patient.getRecentReadings vital 10 patient) = true ->
  AlertProcessor.alertQueue (HospitalScheduler.alertProcessor (fst result))
  = AlertProcessor.alertQueue (HospitalScheduler.alertProcessor hs)
      ++ (if Patient.detectTrend vital patient then [trendAlert] else [])
  /\ snd result = [HospitalScheduler.falseAlarmLine reading message].
Proof.
  intros pid vital patient risk message candidate trendAlert result
    Hp Hrisk Hfalse.
  unfold result, HospitalScheduler.processVitalReading.
  fold pid. rewrite Hp. fold patient. fold risk. fold vital. fold message.
  fold candidate. rewrite Hfalse.
  assert (Hneq : Priority_eqb risk LOW = false).
  { unfold Priority_eqb. apply Z.eqb_neq. intros E.
    apply Hrisk. now apply priority_value_inj. }
  rewrite Hneq. cbn [negb].
  destruct (Patient.detectTrend vital patient); simpl.
  - split; reflexivity.
  - now rewrite app_nil_r.
Qed.

Lemma suppressed_candidate_not_enqueued_witness :
  let result :=
    HospitalScheduler.processVitalReading 50 51
      (Scenario.heart_rate 113 4) Scenario.ward_rising in
  AlertProcessor.alertQueue (HospitalScheduler.alertProcessor (fst result))
  = [Alert.new 51 1 MEDIUM "Concerning trend detected in Heart Rate"
       HEART_RATE]
  /\ snd result
     = [Line "[FALSE ALARM FILTERED] Patient 1: Heart Rate reading: 113 (Priority: 3)"].
Proof.
  refine (suppressed_candidate_not_enqueued 50 51
            (Scenario.heart_rate 113 4) Scenario.ward_rising
            (Scenario.john_after [101; 104; 107; 110]%float)
            eq_refl _ eq_refl).
  discriminate.
Defined.

(** [processVitalReading] depends on the library through the detector
    only: two libraries that agree on the squares of the deviations of the
    recent readings give the same result. *)
Lemma processVitalReading_library (libm1 libm2 : Libm)
    (now_alert now_trend : Z) (reading : VitalReading.t)
    (hs : HospitalScheduler.t) :
  (forall p,
     HospitalScheduler.patients hs !! VitalReading.patientId reading
     = Some p ->
     let recentReadings :=
       Patient.getRecentReadings (VitalReading.type reading) 10
         (Patient.addVitalReading reading p) in
     forall r, In r recentReadings ->
       let deviation :=
         (VitalReading.value r
          - FalseAlarmDetector.calculateMean recentReadings)%float in
       @pow2 libm1 deviation = @pow2 libm2 deviation) ->
  @HospitalScheduler.processVitalReading libm1 now_alert now_trend reading hs
  = @HospitalScheduler.processVitalReading libm2 now_alert now_trend
      reading hs.
Proof.
  intros Hagree. unfold HospitalScheduler.processVitalReading.
  destruct (HospitalScheduler.patients hs !! VitalReading.patientId reading)
    as [p|]; [|reflexivity].
  specialize (Hagree p eq_refl). cbv zeta in Hagree.
  now rewrite (isLikelyFalseAlarm_library libm1 libm2 _ _ Hagree).
Qed.

(** On the ward that has no reading yet the detector sees one reading,
    fewer than the five it asks for, and the library is not called: every
    first reading is processed in the same way with every library. *)
Lemma ward_library (libm : Libm) (now_alert now_trend : Z)
    (reading : VitalReading.t) :
  @HospitalScheduler.processVitalReading libm now_alert now_trend reading
    Scenario.ward
  = @HospitalScheduler.processVitalReading correctly_rounded now_alert
      now_trend reading Scenario.ward.
Proof.
  unfold HospitalScheduler.processVitalReading.
  destruct (HospitalScheduler.patients Scenario.ward
              !! VitalReading.patientId reading) as [p|] eqn:Hp;
    [|reflexivity].
  assert (Hjohn : p = Scenario.john).
  { unfold Scenario.ward, HospitalScheduler.addPatient in Hp. simpl in Hp.
    apply lookup_insert_Some in Hp as [[_ Hp] | [_ Hp]];
      [now symmetry | now rewrite lookup_empty in Hp]. }
  subst p.
  assert (Hshort : forall alert,
            @FalseAlarmDetector.isLikelyFalseAlarm libm alert
              (Patient.getRecentReadings (VitalReading.type reading) 10
                 (Patient.addVitalReading reading Scenario.john))
            = @FalseAlarmDetector.isLikelyFalseAlarm correctly_rounded alert
                (Patient.getRecentReadings (VitalReading.type reading) 10
                   (Patient.addVitalReading reading Scenario.john))).
  { intros alert. destruct reading as [[] value timestamp patientId];
      reflexivity. }
  now rewrite Hshort.
Qed.

(** On the rising ward the deviations of the readings 101 to 113 from
    their mean, 107, are -6, -3, 0, 3 and 6: their squares are exact, and
    the fifth reading is processed in the same way with every library
    that gives them exactly. *)
Lemma rising_ward_library (libm : Libm) :
  List.Forall (fun x => pow2 x = (x * x)%float) [-6; -3; 0; 3; 6]%float ->
  @HospitalScheduler.processVitalReading libm 50 51
    (Scenario.heart_rate 113 4) Scenario.ward_rising
  = @HospitalScheduler.processVitalReading correctly_rounded 50 51
      (Scenario.heart_rate 113 4) Scenario.ward_rising.
Proof.
  intros Hexact. apply processVitalReading_library.
  intros p Hp. vm_compute in Hp. injection Hp as <-.
  intros recentReadings r Hin. vm_compute in Hin.
  rewrite List.Forall_forall in Hexact.
  repeat destruct Hin as [<- | Hin]; try destruct Hin;
    match goal with
    | |- let deviation := ?d in _ =>
        let x := eval vm_compute in d in change d with x
    end;
    cbv zeta; rewrite Hexact; simpl; tauto.
Qed.

(** The claim as worded fails on the rising ward: the fifth reading, 113,
    classifies MEDIUM and its candidate is suppressed, yet the queue grows
    (by the trend alert) and the count of filtered false alarms stays
    at 0.  The run is that of the library that multiplies, and by
    [rising_ward_library] of every library that gives the squares of -6,
    -3, 0, 3 and 6 exactly. *)
Lemma suppressed_candidate_counterexample :
  let reading := Scenario.heart_rate 113 4 in
  let before := Scenario.ward_rising in
  let after :=
    fst (HospitalScheduler.processVitalReading 50 51 reading before) in
  snd (HospitalScheduler.processVitalReading 50 51 reading before)
    = [Line "[FALSE ALARM FILTERED] Patient 1: Heart Rate reading: 113 (Priority: 3)"]
  /\ AlertProcessor.alertQueue (HospitalScheduler.alertProcessor after)
     <> AlertProcessor.alertQueue (HospitalScheduler.alertProcessor before)
  /\ AlertProcessor.getFalseAlarmsFiltered
       (HospitalScheduler.alertProcessor after)
     <> AlertProcessor.getFalseAlarmsFiltered
          (HospitalScheduler.alertProcessor before) + 1.
Proof.
  vm_compute. repeat split; discriminate.
Qed.

(** ** Readings for unknown patients *)

(** C6, as the program has it.  A reading whose patient is not registered
    is dropped without a sign: the call returns as any other, writes
    nothing and leaves the scheduler as it was.  Nothing is classified:
    whatever the vital, the value and the clock, the result is the
    same. *)
Theorem unregistered_reading_dropped_silently {libm : Libm}
    (now_alert now_trend : Z)
    (reading : VitalReading.t) (hs : HospitalScheduler.t) :
  HospitalScheduler.patients hs !! VitalReading.patientId reading = None ->
  HospitalScheduler.processVitalReading now_alert now_trend reading hs
    = (hs, [])
  /\ forall now_alert' now_trend' vital value timestamp,
       HospitalScheduler.processVitalReading now_alert' now_trend'
         (VitalReading.mk vital value timestamp
            (VitalReading.patientId reading)) hs
       = HospitalScheduler.processVitalReading now_alert now_trend reading hs.
Proof.
  intros Hnone. split.
  - now apply processVitalReading_unregistered.
  - intros. now rewrite !processVitalReading_unregistered.
Qed.

Lemma unregistered_reading_dropped_silently_witness :
  HospitalScheduler.processVitalReading 0 0 Scenario.stray Scenario.ward
  = (Scenario.ward, []).
Proof.
  exact (proj1 (unregistered_reading_dropped_silently 0 0 Scenario.stray
                  Scenario.ward eq_refl)).
Defined.

(** The claim as worded fails: the call for the unregistered patient 2
    hands back what the call for a normal reading of the registered
    patient 1 hands back (with every library, by [ward_library]). *)
Lemma unregistered_reading_counterexample :
  HospitalScheduler.patients Scenario.ward
    !! VitalReading.patientId Scenario.stray = None
  /\ ~ Spec.fails_distinctly 0 0 Scenario.stray Scenario.ward.
Proof.
  split; [reflexivity|].
  intros Hdistinct.
  apply (Hdistinct 0 0 (Scenario.heart_rate 75 0)).
  - eexists. reflexivity.
  - reflexivity.
Qed.

(** C10. A reading whose patient is not registered changes nothing: the
    patients and their windows, the devices, the queue and both counters
    are after the call what they were before, and nothing is written. *)
Theorem unregistered_reading_frame {libm : Libm} (now_alert now_trend : Z)
    (reading : VitalReading.t) (hs : HospitalScheduler.t) :
  HospitalScheduler.patients hs !! VitalReading.patientId reading = None ->
  let result :=
    HospitalScheduler.processVitalReading now_alert now_trend reading hs in
  let ap := HospitalScheduler.alertProcessor hs in
  let ap' := HospitalScheduler.alertProcessor (fst result) in
  fst result = hs
  /\ HospitalScheduler.patients (fst result) = HospitalScheduler.patients hs
  /\ HospitalScheduler.devices (fst result) = HospitalScheduler.devices hs
  /\ AlertProcessor.alertQueue ap' = AlertProcessor.alertQueue ap
  /\ AlertProcessor.getTotalAlertsProcessed ap'
     = AlertProcessor.getTotalAlertsProcessed ap
  /\ AlertProcessor.getFalseAlarmsFiltered ap'
     = AlertProcessor.getFalseAlarmsFiltered ap
  /\ snd result = [].
Proof.
  intros Hnone result ap ap'. unfold ap', result.
  rewrite processVitalReading_unregistered by exact Hnone.
  simpl. auto 10.
Qed.

Lemma unregistered_reading_frame_witness :
  fst (HospitalScheduler.processVitalReading 0 0 Scenario.stray
         Scenario.ward_rising) = Scenario.ward_rising.
Proof.
  exact (proj1 (unregistered_reading_frame 0 0 Scenario.stray
                  Scenario.ward_rising eq_refl)).
Defined.

(** ** The stored risk level *)

Lemma addVitalReading_risk (reading : VitalReading.t) (p : Patient.t) :
  Patient.getCurrentRisk (Patient.addVitalReading reading p)
  = Patient.getCurrentRisk p.
Proof. reflexivity. Qed.

Lemma currentRiskLevel_stream {libm : Libm}
    (calls : list (Z * Z * VitalReading.t))
    (hs : HospitalScheduler.t) (pid : Z) (p : Patient.t) :
  HospitalScheduler.patients hs !! pid = Some p ->
  exists p',
    HospitalScheduler.patients
      (fst (HospitalScheduler.processVitalReadings calls hs)) !! pid = Some p'
    /\ Patient.getCurrentRisk p' = Patient.getCurrentRisk p.
Proof.
  revert hs p. induction calls as [|[[now_alert now_trend] reading] calls IH];
    intros hs p Hp.
  - exists p. auto.
  - rewrite processVitalReadings_cons.
    pose proof (processVitalReading_patient now_alert now_trend reading hs
                  pid p Hp) as Hp1.
    destruct (IH _ _ Hp1) as (p' & Hp' & Hrisk).
    exists p'. split; [exact Hp'|]. rewrite Hrisk.
    destruct (VitalReading.patientId reading =? pid); reflexivity.
Qed.

(** C9, as the program has it.  No call of [processVitalReading] writes a
    patient's stored risk level: after any stream of calls it is what it
    was before, whatever alerts were raised.  Throughout the simulation it
    is the LOW the constructor sets. *)
Theorem currentRiskLevel_unchanged {libm : Libm} :
  (forall (calls : list (Z * Z * VitalReading.t)) (hs : HospitalScheduler.t)
     (pid : Z) (p : Patient.t),
     HospitalScheduler.patients hs !! pid = Some p ->
     exists p',
       HospitalScheduler.patients
         (fst (HospitalScheduler.processVitalReadings calls hs)) !! pid
         = Some p'
       /\ Patient.getCurrentRisk p' = Patient.getCurrentRisk p)
  /\ (forall steps,
        Simulation.all_patients (fun p => Patient.getCurrentRisk p = LOW)
          (Simulation.run steps)).
Proof.
  split; [exact currentRiskLevel_stream|].
  apply run_all_patients.
  - reflexivity.
  - intros reading p Hp. now rewrite addVitalReading_risk.
Qed.

Lemma currentRiskLevel_unchanged_witness :
  exists p',
    HospitalScheduler.patients
      (fst (HospitalScheduler.processVitalReadings
              [(7, 8, Scenario.heart_rate 200 0)] Scenario.ward)) !! 1
      = Some p'
    /\ Patient.getCurrentRisk p' = LOW.
Proof.
  exact (proj1 currentRiskLevel_unchanged
           [(7, 8, Scenario.heart_rate 200 0)] Scenario.ward 1 Scenario.john
           eq_refl).
Defined.

(** The claim as worded fails: a heart rate of 200 puts a CRITICAL alert
    for patient 1 into the queue, unacknowledged, and the stored risk level
    of patient 1 is still LOW (with every library, by [ward_library]). *)
Lemma currentRiskLevel_counterexample :
  let after :=
    fst (HospitalScheduler.processVitalReading 7 8
           (Scenario.heart_rate 200 0) Scenario.ward) in
  AlertProcessor.alertQueue (HospitalScheduler.alertProcessor after)
    = [Alert.new 7 1 CRITICAL "Heart Rate reading: 200 (Priority: 1)"
         HEART_RATE]
  /\ ~ Spec.risk_tracks_alerts after.
Proof.
  split; [reflexivity|].
  intros Htracks.
  specialize (Htracks 1 (Patient.addVitalReading (Scenario.heart_rate 200 0)
                           Scenario.john) CRITICAL eq_refl eq_refl).
  discriminate Htracks.
Qed.

(** ** Worked examples *)

(** The readings of the program's own test of the detector, 75 to 84: the
    latest lies 1.57 standard deviations above the mean, which a MEDIUM
    candidate needs less than 1.5 of to be suppressed. *)
Example isLikelyFalseAlarm_ramp :
  FalseAlarmDetector.isLikelyFalseAlarm
    (Alert.new 0 1 MEDIUM "Test" HEART_RATE)
    (map (fun x => Scenario.heart_rate x 0)
       [75; 76; 77; 78; 79; 80; 81; 82; 83; 84]%float)
  = false.
Proof. reflexivity. Qed.

(** Five equal readings: the standard deviation is 0, nothing is
    suppressed. *)
Example isLikelyFalseAlarm_flat :
  FalseAlarmDetector.isLikelyFalseAlarm
    (Alert.new 0 1 CRITICAL "Test" HEART_RATE)
    (map (fun x => Scenario.heart_rate x 0) [75; 75; 75; 75; 75]%float)
  = false.
Proof. reflexivity. Qed.

(** A heart rate of 200 after ten steady readings around 75: classified
    CRITICAL, not suppressed, and served before the trend alert raised by
    the same reading. *)
Example spike_after_ten_readings :
  let steady := [75.2; 74.8; 75.1; 74.9; 75.0;
                 75.2; 74.8; 75.1; 74.9; 75.0]%float in
  let result :=
    HospitalScheduler.processVitalReading 7 8 (Scenario.heart_rate 200 10)
      (Scenario.ward_after steady) in
  snd result = []
  /\ PriorityQueue.drain AlertComparator 2
       (AlertProcessor.alertQueue
          (HospitalScheduler.alertProcessor (fst result)))
     = [Alert.new 7 1 CRITICAL "Heart Rate reading: 200 (Priority: 1)"
          HEART_RATE;
        Alert.new 8 1 MEDIUM "Concerning trend detected in Heart Rate"
          HEART_RATE].
Proof. split; reflexivity. Qed.

(** The same reading after five steady readings only: the spike itself is
    one of the six readings the statistics are taken over, its z-score is
    2.236, below the 2.5 asked of a CRITICAL candidate, and the candidate
    is suppressed. *)
Example spike_after_five_readings :
  let steady := [75.2; 74.8; 75.1; 74.9; 75.0]%float in
  let result :=
    HospitalScheduler.processVitalReading 7 8 (Scenario.heart_rate 200 5)
      (Scenario.ward_after steady) in
  Patient.assessRisk (Scenario.heart_rate 200 5) Scenario.john = CRITICAL
  /\ snd result
     = [Line "[FALSE ALARM FILTERED] Patient 1: Heart Rate reading: 200 (Priority: 1)"]
  /\ AlertProcessor.alertQueue (HospitalScheduler.alertProcessor (fst result))
     = [Alert.new 8 1 MEDIUM "Concerning trend detected in Heart Rate"
          HEART_RATE].
Proof. repeat split; reflexivity. Qed.

(** * Further properties of the program *)

(** ** The order of the doubles *)

Module DoubleOrder.

#[local] Open Scope float_scope.

Lemma digits2_pos_bound (m : positive) :
  (Zpos m < 2 ^ Zpos (digits2_pos m))%Z.
Proof.
  induction m as [m IH | m IH |]; simpl digits2_pos;
    rewrite ?Pos2Z.inj_succ, ?Z.pow_succ_r by lia; lia.
Qed.

Lemma valid_finite_bounds s m e :
  valid_binary (S754_finite s m e) = true ->
  (Zpos m < 2 ^ 53 /\ -1074 <= e <= 971)%Z.
Proof.
  unfold SpecFloat.valid_binary, bounded, canonical_mantissa, fexp, emin,
    prec, emax.
  intros H. apply andb_prop in H as [Hc He].
  apply Z.eqb_eq in Hc. apply Z.leb_le in He.
  pose proof (digits2_pos_bound m) as Hd.
  assert (Hdig : (Zpos (digits2_pos m) <= 53)%Z) by lia.
  split; [|lia].
  eapply Z.lt_le_trans; [exact Hd|].
  apply Z.pow_le_mono_r; lia.
Qed.

(** On values that are not NaN the comparison of the library is the
    comparison of the ranks. *)
Lemma SFcompare_rank x y :
  valid_binary x = true -> valid_binary y = true ->
  Double.is_nan_spec x = false -> Double.is_nan_spec y = false ->
  SFcompare x y = Some (Double.rank x ?= Double.rank y)%Z.
Proof.
  intros Hx Hy Hnx Hny.
  destruct x as [sx|sx| |sx mx ex]; try discriminate Hnx;
    destruct y as [sy|sy| |sy my ey]; try discriminate Hny;
    try (apply valid_finite_bounds in Hx as [Hmx Hex]);
    try (apply valid_finite_bounds in Hy as [Hmy Hey]);
    unfold SFcompare, Double.rank;
    try destruct sx; try destruct sy; f_equal; symmetry;
    try (apply Z.compare_eq_iff; lia);
    try (apply Z.compare_lt_iff; lia);
    try (apply Z.compare_gt_iff; lia).
  - (* both negative *)
    change (PosDef.Pos.compare_cont Eq mx my) with (Pos.compare mx my).
    destruct (Z.compare_spec ex ey) as [-> | Hlt | Hgt].
    + destruct (Pos.compare_spec mx my) as [-> | H | H]; simpl;
        [apply Z.compare_eq_iff | apply Z.compare_gt_iff
         | apply Z.compare_lt_iff]; lia.
    + apply Z.compare_gt_iff. nia.
    + apply Z.compare_lt_iff. nia.
  - (* both positive *)
    change (PosDef.Pos.compare_cont Eq mx my) with (Pos.compare mx my).
    destruct (Z.compare_spec ex ey) as [-> | Hlt | Hgt].
    + destruct (Pos.compare_spec mx my) as [-> | H | H];
        [apply Z.compare_eq_iff | apply Z.compare_lt_iff
         | apply Z.compare_gt_iff]; lia.
    + apply Z.compare_lt_iff. nia.
    + apply Z.compare_gt_iff. nia.
Qed.

Lemma Prim2SF_nan x : Prim2SF x = S754_nan <-> x = nan.
Proof.
  split; [|intros ->; reflexivity].
  intros H. apply Prim2SF_inj. rewrite H. reflexivity.
Qed.

Lemma not_nan_spec x : x <> nan -> Double.is_nan_spec (Prim2SF x) = false.
Proof.
  intros Hx. destruct (Prim2SF x) eqn:E; try reflexivity.
  now apply Prim2SF_nan in E.
Qed.

Lemma compare_rank x y :
  x <> nan -> y <> nan ->
  SFcompare (Prim2SF x) (Prim2SF y)
  = Some (Double.rank_of x ?= Double.rank_of y)%Z.
Proof.
  intros Hx Hy. apply SFcompare_rank;
    auto using Prim2SF_valid, not_nan_spec.
Qed.

Lemma ltb_rank x y :
  x <> nan -> y <> nan ->
  (x <? y) = (Double.rank_of x <? Double.rank_of y)%Z.
Proof.
  intros Hx Hy. rewrite ltb_spec. unfold SFltb, Z.ltb.
  rewrite (compare_rank _ _ Hx Hy).
  destruct (Double.rank_of x ?= Double.rank_of y)%Z; reflexivity.
Qed.

Lemma leb_rank x y :
  x <> nan -> y <> nan ->
  (x <=? y) = (Double.rank_of x <=? Double.rank_of y)%Z.
Proof.
  intros Hx Hy. rewrite leb_spec. unfold SFleb, Z.leb.
  rewrite (compare_rank _ _ Hx Hy).
  destruct (Double.rank_of x ?= Double.rank_of y)%Z; reflexivity.
Qed.

Lemma eqb_rank x y :
  x <> nan -> y <> nan ->
  (x =? y) = (Double.rank_of x =? Double.rank_of y)%Z.
Proof.
  intros Hx Hy. rewrite FloatAxioms.eqb_spec, Z.eqb_compare. unfold SFeqb.
  rewrite (compare_rank _ _ Hx Hy).
  destruct (Double.rank_of x ?= Double.rank_of y)%Z; reflexivity.
Qed.

Lemma SFcompare_nan_r x : SFcompare x S754_nan = None.
Proof. now destruct x. Qed.

Lemma ltb_nan_l y : (nan <? y) = false.
Proof. rewrite ltb_spec. reflexivity. Qed.

Lemma ltb_nan_r x : (x <? nan) = false.
Proof.
  rewrite ltb_spec. unfold SFltb.
  change (Prim2SF nan) with S754_nan. now rewrite SFcompare_nan_r.
Qed.

Lemma leb_nan_l y : (nan <=? y) = false.
Proof. rewrite leb_spec. reflexivity. Qed.

Lemma leb_nan_r x : (x <=? nan) = false.
Proof.
  rewrite leb_spec. unfold SFleb.
  change (Prim2SF nan) with S754_nan. now rewrite SFcompare_nan_r.
Qed.

Lemma nan_dec x : {x = nan} + {x <> nan}.
Proof.
  destruct (Prim2SF x) eqn:E;
    try (right; intros ->; discriminate E).
  left. now apply Prim2SF_nan.
Qed.

Lemma ltb_true_not_nan x y : (x <? y) = true -> x <> nan /\ y <> nan.
Proof.
  intros H. split; intros ->;
    [rewrite ltb_nan_l in H | rewrite ltb_nan_r in H]; discriminate.
Qed.

Lemma leb_true_not_nan x y : (x <=? y) = true -> x <> nan /\ y <> nan.
Proof.
  intros H. split; intros ->;
    [rewrite leb_nan_l in H | rewrite leb_nan_r in H]; discriminate.
Qed.

End DoubleOrder.

(** ** Risk classification, all vitals *)

Ltac not_nan_const :=
  let E := fresh in
  intros E; apply (f_equal Prim2SF) in E; vm_compute in E; discriminate E.

(** Comparisons of doubles that are not NaN become comparisons of ranks,
    the ranks of the constants being computed. *)
Ltac to_ranks :=
  unfold Double.gtb in *;
  repeat match goal with
  | |- context [PrimFloat.ltb ?a ?b] =>
      rewrite (DoubleOrder.ltb_rank a b) by (assumption || not_nan_const)
  | |- context [PrimFloat.leb ?a ?b] =>
      rewrite (DoubleOrder.leb_rank a b) by (assumption || not_nan_const)
  | H : context [PrimFloat.ltb ?a ?b] |- _ =>
      rewrite (DoubleOrder.ltb_rank a b) in H by (assumption || not_nan_const)
  | H : context [PrimFloat.leb ?a ?b] |- _ =>
      rewrite (DoubleOrder.leb_rank a b) in H by (assumption || not_nan_const)
  end;
  repeat match goal with
  | |- context [Double.rank_of ?c] =>
      tryif is_var c then fail else
        let k := eval vm_compute in (Double.rank_of c) in
        change (Double.rank_of c) with k
  | H : context [Double.rank_of ?c] |- _ =>
      tryif is_var c then fail else
        let k := eval vm_compute in (Double.rank_of c) in
        change (Double.rank_of c) with k in H
  end.

Ltac split_cmp :=
  repeat match goal with
  | |- context [(?a <? ?b)%Z] => destruct (Z.ltb_spec a b); cbn [orb andb negb]
  | |- context [(?a <=? ?b)%Z] => destruct (Z.leb_spec a b); cbn [orb andb negb]
  end.

Lemma assessRisk_of_nan (reading : VitalReading.t) (p : Patient.t) :
  VitalReading.value reading = nan ->
  Patient.assessRisk reading p = LOW.
Proof.
  intros Hnan. unfold Patient.assessRisk, Double.gtb. rewrite Hnan.
  rewrite !DoubleOrder.ltb_nan_l, !DoubleOrder.ltb_nan_r.
  now destruct (VitalReading.type reading).
Qed.

(** X1. A reading that is not a number is classified LOW, whatever the
    vital and the normal ranges: no comparison holds of a NaN. *)
Theorem assessRisk_nan (reading : VitalReading.t) (p : Patient.t) :
  VitalReading.value reading = nan ->
  Patient.assessRisk reading p = LOW.
Proof.
  intros Hnan. unfold Patient.assessRisk, Double.gtb.
  destruct (VitalReading.type reading); rewrite Hnan;
    rewrite !DoubleOrder.ltb_nan_l, !DoubleOrder.ltb_nan_r; reflexivity.
Qed.

Lemma assessRisk_nan_witness :
  Patient.assessRisk (VitalReading.mk OXYGEN_SATURATION nan 0 1)
    Scenario.john = LOW.
Proof.
  exact (assessRisk_nan (VitalReading.mk OXYGEN_SATURATION nan 0 1)
           Scenario.john eq_refl).
Defined.

(** X2. With the normal ranges the constructor sets, a reading is
    classified LOW exactly when its value lies within the normal range of
    its vital, bounds included, or is not a number. *)
Theorem assessRisk_low_iff_normal (reading : VitalReading.t) (p : Patient.t) :
  Patient.normalRanges p = Patient.initializeNormalRanges ->
  let value := VitalReading.value reading in
  let range := Patient.initializeNormalRanges (VitalReading.type reading) in
  Patient.assessRisk reading p = LOW
  <-> value = nan
      \/ ((fst range <=? value) && (value <=? snd range))%float = true.
Proof.
  intros Hranges value range.
  destruct (DoubleOrder.nan_dec value) as [Hnan | Hnum].
  - split; [now left | intros _; now apply assessRisk_of_nan].
  - unfold Patient.assessRisk. rewrite Hranges. fold value.
    unfold range. clearbody value.
    destruct (VitalReading.type reading); cbn [Patient.initializeNormalRanges fst snd];
      to_ranks; split_cmp;
      (split; [intros Hrisk | intros [Hn | Hb]]);
      try discriminate; try contradiction; try reflexivity;
      try (right; reflexivity); exfalso; lia.
Qed.

Lemma assessRisk_low_iff_normal_witness :
  Patient.assessRisk (Scenario.heart_rate 100 0) Scenario.john = LOW.
Proof.
  apply (proj2 (assessRisk_low_iff_normal (Scenario.heart_rate 100 0)
                  Scenario.john eq_refl)).
  right. reflexivity.
Defined.

(** X3. With the normal ranges the constructor sets, urgency grows with the
    distance from the normal range: of two readings of one vital, at or
    above the lower bound the higher one is at least as urgent, at or below
    the upper bound the lower one is. *)
Theorem assessRisk_monotone (low high : VitalReading.t) (p : Patient.t) :
  Patient.normalRanges p = Patient.initializeNormalRanges ->
  VitalReading.type low = VitalReading.type high ->
  let range := Patient.initializeNormalRanges (VitalReading.type low) in
  (VitalReading.value low <=? VitalReading.value high)%float = true ->
  ((fst range <=? VitalReading.value low)%float = true ->
   priority_value (Patient.assessRisk high p)
   <= priority_value (Patient.assessRisk low p))
  /\ ((VitalReading.value high <=? snd range)%float = true ->
      priority_value (Patient.assessRisk low p)
      <= priority_value (Patient.assessRisk high p)).
Proof.
  intros Hranges Htype range Hle.
  destruct (DoubleOrder.leb_true_not_nan _ _ Hle) as [Hv Hw].
  unfold Patient.assessRisk. rewrite Hranges, <- Htype. unfold range.
  revert Hle Hv Hw.
  generalize (VitalReading.value low) (VitalReading.value high).
  intros v w Hle Hv Hw.
  destruct (VitalReading.type low);
    cbn [Patient.initializeNormalRanges fst snd]; to_ranks;
    apply Z.leb_le in Hle;
    (split; intros Hbound; apply Z.leb_le in Hbound);
    split_cmp; simpl; lia.
Qed.

Lemma assessRisk_monotone_witness :
  priority_value
    (Patient.assessRisk (VitalReading.mk HEART_RATE 185 0 1) Scenario.john)
  <= priority_value
       (Patient.assessRisk (VitalReading.mk HEART_RATE 110 0 1) Scenario.john).
Proof.
  apply (assessRisk_monotone (VitalReading.mk HEART_RATE 110 0 1)
           (VitalReading.mk HEART_RATE 185 0 1) Scenario.john
           eq_refl eq_refl eq_refl).
  reflexivity.
Defined.

(** ** Readings that are not numbers *)

Module NanFacts.

#[local] Open Scope float_scope.

Ltac by_spec :=
  apply Prim2SF_inj;
  rewrite ?add_spec, ?sub_spec, ?mul_spec, ?div_spec, ?sqrt_spec, ?abs_spec;
  change (Prim2SF nan) with S754_nan;
  try reflexivity;
  match goal with |- context [Prim2SF ?x] => now destruct (Prim2SF x) end.

Lemma add_nan_l x : nan + x = nan. Proof. by_spec. Qed.
Lemma add_nan_r x : x + nan = nan. Proof. by_spec. Qed.
Lemma sub_nan_l x : nan - x = nan. Proof. by_spec. Qed.
Lemma sub_nan_r x : x - nan = nan. Proof. by_spec. Qed.
Lemma mul_nan_l x : nan * x = nan. Proof. by_spec. Qed.
Lemma div_nan_l x : nan / x = nan. Proof. by_spec. Qed.
Lemma div_nan_r x : x / nan = nan. Proof. by_spec. Qed.

Lemma eqb_nan_l x : (nan =? x) = false.
Proof. rewrite FloatAxioms.eqb_spec. reflexivity. Qed.

End NanFacts.

(** Once a NaN, always a NaN. *)
Ltac nan_absorb :=
  repeat first
    [ rewrite NanFacts.add_nan_l | rewrite NanFacts.add_nan_r
    | rewrite NanFacts.sub_nan_l | rewrite NanFacts.sub_nan_r
    | rewrite NanFacts.mul_nan_l
    | rewrite NanFacts.div_nan_l | rewrite NanFacts.div_nan_r
    | progress change (PrimFloat.abs nan) with nan
    | progress change (PrimFloat.sqrt nan) with nan ].

(** ** Trend detection, further *)

Lemma detectTrend_of_nan (p : Patient.t) (vital : VitalSign) :
  In nan (Spec.last_n 5
            (map VitalReading.value (Patient.vitalHistory p vital))) ->
  Patient.detectTrend vital p = false.
Proof.
  intros Hnan. rewrite detectTrend_window.
  destruct (length _ <? 5)%nat eqn:Hlen; [reflexivity|].
  apply Nat.ltb_ge in Hlen. rewrite <- (length_map VitalReading.value) in Hlen.
  destruct (last5_split _ Hlen) as (pre & a & b & c & d & e & Hw).
  unfold Spec.mean_change. rewrite Hw in Hnan |- *.
  rewrite last_n_app_exact in Hnan |- * by reflexivity.
  unfold Spec.sum, Double.gtb. simpl in Hnan |- *.
  destruct Hnan as [-> | [-> | [-> | [-> | [-> | []]]]]];
    nan_absorb; apply DoubleOrder.ltb_nan_r.
Qed.

(** X4. [detectTrend] looks at the last five readings only: two windows of
    five readings or more that end with the same five values get the same
    answer.  A reading that is not a number among the last five makes the
    answer [false]. *)
Theorem detectTrend_last_five (p q : Patient.t) (vital : VitalSign) :
  let window := map VitalReading.value (Patient.vitalHistory p vital) in
  let window' := map VitalReading.value (Patient.vitalHistory q vital) in
  (5 <= length window)%nat ->
  ((5 <= length window')%nat ->
   Spec.last_n 5 window = Spec.last_n 5 window' ->
   Patient.detectTrend vital p = Patient.detectTrend vital q)
  /\ (In nan (Spec.last_n 5 window) -> Patient.detectTrend vital p = false).
Proof.
  intros window window' Hlen. split; [|apply detectTrend_of_nan].
  intros Hlen' Hsame.
  rewrite !detectTrend_window. fold window window'.
  unfold window, window' in Hlen, Hlen'. rewrite length_map in Hlen, Hlen'.
  apply Nat.ltb_ge in Hlen, Hlen'. rewrite Hlen, Hlen'.
  unfold Spec.mean_change. now rewrite Hsame.
Qed.

Lemma detectTrend_last_five_witness :
  Patient.detectTrend HEART_RATE
    (Scenario.john_after [60; 70; 73; 76; 79; 82]%float)
  = Patient.detectTrend HEART_RATE
      (Scenario.john_after [70; 73; 76; 79; 82]%float)
  /\ Patient.detectTrend HEART_RATE
       (Scenario.john_after [70; 73; nan; 79; 82]%float) = false.
Proof.
  split.
  - apply (proj1 (detectTrend_last_five
                    (Scenario.john_after [60; 70; 73; 76; 79; 82]%float)
                    (Scenario.john_after [70; 73; 76; 79; 82]%float)
                    HEART_RATE ltac:(simpl; lia)));
      [simpl; lia | reflexivity].
  - apply (proj2 (detectTrend_last_five
                    (Scenario.john_after [70; 73; nan; 79; 82]%float)
                    Scenario.john HEART_RATE ltac:(simpl; lia))).
    simpl. tauto.
Defined.

(** ** Recent readings *)

Lemma addVitalReading_last (reading : VitalReading.t) (p : Patient.t) :
  exists front,
    Patient.vitalHistory (Patient.addVitalReading reading p)
      (VitalReading.type reading) = front ++ [reading].
Proof.
  unfold Patient.addVitalReading. simpl.
  rewrite (proj2 (VitalSign_eqb_eq _ _) eq_refl).
  set (h := Patient.vitalHistory p (VitalReading.type reading)).
  destruct (100 <? length (h ++ [reading]))%nat eqn:E;
    [|exists h; reflexivity].
  apply Nat.ltb_lt in E. rewrite length_app in E. simpl in E.
  destruct h as [|x h]; [simpl in E; lia|]. exists h. reflexivity.
Qed.

(** X5. For a count that is not negative [getRecentReadings] gives the
    latest [count] readings of the vital in order of arrival, all of them
    when there are fewer.  Right after [addVitalReading], and for a
    positive count, the last of them is the reading just added: it is the
    one the false-alarm detector takes as current. *)
Theorem getRecentReadings_latest (vital : VitalSign) (count : Z)
    (p : Patient.t) :
  0 <= count ->
  Patient.getRecentReadings vital count p
    = Spec.last_n (Z.to_nat count) (Patient.vitalHistory p vital)
  /\ length (Patient.getRecentReadings vital count p)
     = Nat.min (Z.to_nat count) (length (Patient.vitalHistory p vital))
  /\ (0 < count ->
      forall reading, VitalReading.type reading = vital ->
        exists front,
          Patient.getRecentReadings vital count
            (Patient.addVitalReading reading p) = front ++ [reading]
          /\ FalseAlarmDetector.back_value (front ++ [reading])
             = VitalReading.value reading).
Proof.
  intros Hcount.
  assert (Hsuffix : forall q,
            Patient.getRecentReadings vital count q
            = Spec.last_n (Z.to_nat count) (Patient.vitalHistory q vital)).
  { intros q. unfold Patient.getRecentReadings, Spec.last_n.
    destruct (Patient.vitalHistory q vital) as [|x h] eqn:E;
      [now rewrite skipn_nil|].
    f_equal. lia. }
  split; [apply Hsuffix|]. split; [rewrite Hsuffix; apply last_n_length|].
  intros Hpos reading <-. rewrite Hsuffix.
  destruct (addVitalReading_last reading p) as [front ->].
  unfold Spec.last_n. rewrite length_app. simpl length.
  rewrite skipn_app.
  replace (length front + 1 - Z.to_nat count - length front)%nat with 0%nat
    by lia.
  simpl skipn. eexists. split; [reflexivity|].
  unfold FalseAlarmDetector.back_value. rewrite map_app. simpl.
  apply last_last.
Qed.

Lemma getRecentReadings_latest_witness :
  Patient.getRecentReadings HEART_RATE 2
    (Scenario.john_after [101; 104; 107]%float)
  = [Scenario.heart_rate 104 1; Scenario.heart_rate 107 2].
Proof.
  rewrite (proj1 (getRecentReadings_latest HEART_RATE 2
                    (Scenario.john_after [101; 104; 107]%float)
                    ltac:(lia))).
  reflexivity.
Defined.

(** ** False-alarm suppression, further *)

(** X6. The detector looks at the priority of the alert only, and a
    CRITICAL candidate is suppressed whenever a candidate of another
    priority would be on the same readings: its threshold is the higher
    one. *)
Theorem isLikelyFalseAlarm_critical_lenient {libm : Libm}
    (alert critical : Alert.t)
    (recentReadings : list VitalReading.t) :
  Alert.priority critical = CRITICAL ->
  FalseAlarmDetector.isLikelyFalseAlarm alert recentReadings = true ->
  FalseAlarmDetector.isLikelyFalseAlarm critical recentReadings = true.
Proof.
  unfold FalseAlarmDetector.isLikelyFalseAlarm. intros ->.
  destruct (length recentReadings <? 5)%nat; [trivial|].
  destruct (_ =? 0)%float; [trivial|].
  destruct (Alert.priority alert); simpl; trivial;
    intros H; exact (DoubleFacts.ltb_trans _ 1.5 2.5 H eq_refl).
Qed.

Lemma isLikelyFalseAlarm_critical_lenient_witness :
  FalseAlarmDetector.isLikelyFalseAlarm
    (Alert.new 0 1 CRITICAL "x" HEART_RATE)
    (map (fun x => Scenario.heart_rate x 0)
       [101; 104; 107; 110; 113]%float) = true.
Proof.
  exact (isLikelyFalseAlarm_critical_lenient
           (Alert.new 0 1 MEDIUM "x" HEART_RATE)
           (Alert.new 0 1 CRITICAL "x" HEART_RATE)
           (map (fun x => Scenario.heart_rate x 0)
              [101; 104; 107; 110; 113]%float) eq_refl eq_refl).
Defined.

Lemma fold_left_nan {A : Type} (f : float -> A -> float) (l : list A) :
  (forall x, f nan x = nan) -> fold_left f l nan = nan.
Proof.
  intros Hf. induction l as [|x l IH]; simpl; [reflexivity|].
  now rewrite Hf.
Qed.

Lemma sum_with_nan (readings : list VitalReading.t) (acc : float) :
  In nan (map VitalReading.value readings) ->
  fold_left (fun sum reading => (sum + VitalReading.value reading)%float)
    readings acc = nan.
Proof.
  revert acc. induction readings as [|r readings IH]; intros acc;
    simpl; [tauto|].
  intros [Hr | Hin]; [|now apply IH].
  rewrite Hr, NanFacts.add_nan_r.
  apply fold_left_nan. intros x. apply NanFacts.add_nan_l.
Qed.

(** X7. A reading that is not a number among the recent readings switches
    the suppression off: the mean and, whatever the standard deviation,
    the z-score are then not numbers either, and no candidate is
    suppressed. *)
Theorem isLikelyFalseAlarm_nan {libm : Libm} (alert : Alert.t)
    (recentReadings : list VitalReading.t) :
  In nan (map VitalReading.value recentReadings) ->
  FalseAlarmDetector.isLikelyFalseAlarm alert recentReadings = false.
Proof.
  intros Hnan. unfold FalseAlarmDetector.isLikelyFalseAlarm.
  destruct (length recentReadings <? 5)%nat; [reflexivity|].
  assert (Hmean : FalseAlarmDetector.calculateMean recentReadings = nan).
  { unfold FalseAlarmDetector.calculateMean.
    rewrite (sum_with_nan _ _ Hnan). apply NanFacts.div_nan_l. }
  rewrite Hmean.
  destruct (_ =? 0)%float; [reflexivity|].
  nan_absorb. apply DoubleOrder.ltb_nan_l.
Qed.

Lemma isLikelyFalseAlarm_nan_witness :
  FalseAlarmDetector.isLikelyFalseAlarm
    (Alert.new 0 1 MEDIUM "x" HEART_RATE)
    (map (fun x => Scenario.heart_rate x 0)
       [101; nan; 107; 110; 113]%float) = false.
Proof.
  apply isLikelyFalseAlarm_nan. simpl. tauto.
Defined.

(** X8. A reading that is not a number raises nothing: the reading of a
    registered patient is stored in the window, but no alert is queued and
    no line is written. *)
Theorem processVitalReading_nan {libm : Libm} (now_alert now_trend : Z)
    (reading : VitalReading.t) (hs : HospitalScheduler.t) (p : Patient.t) :
  HospitalScheduler.patients hs !! VitalReading.patientId reading = Some p ->
  VitalReading.value reading = nan ->
  HospitalScheduler.processVitalReading now_alert now_trend reading hs
  = ({| HospitalScheduler.patients :=
          <[VitalReading.patientId reading :=
              Patient.addVitalReading reading p]>
            (HospitalScheduler.patients hs);
        HospitalScheduler.devices := HospitalScheduler.devices hs;
        HospitalScheduler.alertProcessor :=
          HospitalScheduler.alertProcessor hs |},
     []).
Proof.
  intros Hp Hnan. unfold HospitalScheduler.processVitalReading.
  rewrite Hp, (assessRisk_of_nan _ _ Hnan).
  change (negb (Priority_eqb LOW LOW)) with false. cbv iota.
  rewrite detectTrend_of_nan; [reflexivity|].
  destruct (addVitalReading_last reading p) as [front ->].
  rewrite map_app. simpl map. rewrite Hnan.
  unfold Spec.last_n. rewrite length_app. simpl length.
  rewrite skipn_app. apply in_or_app. right.
  replace (length (map VitalReading.value front) + 1 - 5
           - length (map VitalReading.value front))%nat with 0%nat by lia.
  now left.
Qed.

Lemma processVitalReading_nan_witness :
  snd (HospitalScheduler.processVitalReading 7 8
         (Scenario.heart_rate nan 4) Scenario.ward_rising) = []
  /\ AlertProcessor.alertQueue
       (HospitalScheduler.alertProcessor
          (fst (HospitalScheduler.processVitalReading 7 8
                  (Scenario.heart_rate nan 4) Scenario.ward_rising))) = [].
Proof.
  rewrite (processVitalReading_nan 7 8 (Scenario.heart_rate nan 4)
             Scenario.ward_rising
             (Scenario.john_after [101; 104; 107; 110]%float)
             eq_refl eq_refl).
  split; reflexivity.
Defined.

(** ** The comparator and the alert processor, further *)

Lemma AlertComparator_true a b :
  AlertComparator a b = true
  <-> priority_value (Alert.priority a) > priority_value (Alert.priority b)
      \/ (priority_value (Alert.priority a)
           = priority_value (Alert.priority b)
          /\ Alert.createdAt a > Alert.createdAt b).
Proof.
  unfold AlertComparator, Priority_eqb.
  destruct (Z.eqb_spec (priority_value (Alert.priority a))
              (priority_value (Alert.priority b))); simpl;
    rewrite Z.gtb_ltb, Z.ltb_lt; lia.
Qed.

(** X9. [AlertComparator] is a strict weak ordering, as a priority queue
    needs: no alert is to be served after itself, of two alerts at most one
    is to be served after the other, "after" is transitive, and two alerts
    neither of which is to be served after the other have the same
    priority and the same creation time. *)
Theorem AlertComparator_strict_weak_order :
  (forall a, AlertComparator a a = false)
  /\ (forall a b, AlertComparator a b = true -> AlertComparator b a = false)
  /\ (forall a b c,
        AlertComparator a b = true -> AlertComparator b c = true ->
        AlertComparator a c = true)
  /\ (forall a b,
        AlertComparator a b = false /\ AlertComparator b a = false
        <-> Alert.priority a = Alert.priority b
            /\ Alert.createdAt a = Alert.createdAt b).
Proof.
  split; [|split; [|split]].
  - intros a. apply (comp_irrefl AlertComparator AlertComparator_asym).
  - exact AlertComparator_asym.
  - intros a b c. rewrite !AlertComparator_true. lia.
  - intros a b. rewrite !AlertComparator_false. unfold Spec.dispatch_le.
    split.
    + intros [[? | [E ?]] [? | [E' ?]]]; try (rewrite ?E, ?E' in *; lia).
      split; [exact E | lia].
    + intros [E Ht]. rewrite E, Ht. split; right; split; auto; lia.
Qed.

(** X10. [processNextAlert] does nothing on an empty queue.  Otherwise it
    takes out one alert that no queued alert is to be served before,
    leaves the others queued, writes the two lines of that alert and
    counts it as processed. *)
Theorem processNextAlert_step (now : Z) (ap : AlertProcessor.t) :
  let ap' := fst (AlertProcessor.processNextAlert now ap) in
  (AlertProcessor.alertQueue ap = [] ->
   AlertProcessor.processNextAlert now ap = (ap, []))
  /\ (AlertProcessor.alertQueue ap <> [] ->
      exists alert,
        (forall other, In other (AlertProcessor.alertQueue ap) ->
           Spec.dispatch_le alert other)
        /\ Permutation (AlertProcessor.alertQueue ap)
             (alert :: AlertProcessor.alertQueue ap')
        /\ snd (AlertProcessor.processNextAlert now ap)
           = AlertProcessor.handleAlert now alert
        /\ AlertProcessor.getTotalAlertsProcessed ap'
           = AlertProcessor.getTotalAlertsProcessed ap + 1
        /\ AlertProcessor.getFalseAlarmsFiltered ap'
           = AlertProcessor.getFalseAlarmsFiltered ap).
Proof.
  intros ap'. unfold ap', AlertProcessor.processNextAlert.
  destruct (AlertProcessor.alertQueue ap) as [|a rest]; simpl.
  - split; [reflexivity | congruence].
  - split; [discriminate|]. intros _.
    exists (fst (PriorityQueue.select AlertComparator a rest)).
    destruct (select_top AlertComparator AlertComparator_asym
                AlertComparator_negtrans a rest) as [_ Hmax].
    split; [|split; [apply select_perm | auto]].
    intros other Hother. apply AlertComparator_false. now apply Hmax.
Qed.

Lemma processNextAlert_step_witness :
  exists alert,
    snd (AlertProcessor.processNextAlert 9
           (AlertProcessor.addAlert (Alert.new 2 1 CRITICAL "c" HEART_RATE)
              (AlertProcessor.addAlert (Alert.new 1 1 HIGH "h" HEART_RATE)
                 AlertProcessor.new)))
    = AlertProcessor.handleAlert 9 alert
    /\ Alert.priority alert = CRITICAL.
Proof.
  destruct (proj2 (processNextAlert_step 9
                     (AlertProcessor.addAlert
                        (Alert.new 2 1 CRITICAL "c" HEART_RATE)
                        (AlertProcessor.addAlert
                           (Alert.new 1 1 HIGH "h" HEART_RATE)
                           AlertProcessor.new)))
              ltac:(discriminate))
    as (alert & Hmax & _ & Hout & _).
  exists alert. split; [exact Hout|].
  specialize (Hmax (Alert.new 2 1 CRITICAL "c" HEART_RATE)
                ltac:(simpl; tauto)).
  destruct Hmax as [H | [H _]]; simpl in H;
    destruct (Alert.priority alert); simpl in H; congruence || lia.
Defined.

Lemma handled_in_turn_length (clock : nat -> Z) (k : nat)
    (order : list Alert.t) :
  length (Spec.handled_in_turn clock k order) = (2 * length order)%nat.
Proof.
  revert k. induction order as [|a order IH]; intros k; simpl; [reflexivity|].
  rewrite IH. lia.
Qed.

(** X11. [processAllAlerts] always comes to an end: whatever the queue
    holds, every alert in it is handled once, with two lines each, the
    queue is left empty and the count of processed alerts grows by their
    number.  Calling it again does nothing. *)
Theorem processAllAlerts_empties (clock clock' : nat -> Z)
    (ap : AlertProcessor.t) :
  exists ap' out,
    AlertProcessor.processAllAlerts clock ap = Some (ap', out)
    /\ AlertProcessor.alertQueue ap' = []
    /\ AlertProcessor.hasAlerts ap' = false
    /\ AlertProcessor.getTotalAlertsProcessed ap'
       = AlertProcessor.getTotalAlertsProcessed ap
         + Z.of_nat (length (AlertProcessor.alertQueue ap))
    /\ AlertProcessor.getFalseAlarmsFiltered ap'
       = AlertProcessor.getFalseAlarmsFiltered ap
    /\ length out = (2 * length (AlertProcessor.alertQueue ap))%nat
    /\ AlertProcessor.processAllAlerts clock' ap' = Some (ap', []).
Proof.
  unfold AlertProcessor.processAllAlerts.
  rewrite processAllAlerts_loop_drain by lia.
  eexists _, _. split; [reflexivity|]. simpl.
  repeat split.
  rewrite handled_in_turn_length. f_equal.
  pose proof (drain_serves AlertComparator AlertComparator_asym
                AlertComparator_negtrans (AlertProcessor.alertQueue ap)) as Hs.
  apply serves_perm, Permutation_length in Hs. now rewrite <- Hs.
Qed.

(** X12. The response-time requirement is the easier to meet the shorter
    the response and the less urgent the alert: what is in time for an
    alert is in time for any faster response to an alert that is not more
    urgent. *)
Theorem checkResponseTimeRequirement_monotone (priority priority' : Priority)
    (ms ms' : Z) :
  priority_value priority <= priority_value priority' ->
  ms' <= ms ->
  AlertProcessor.checkResponseTimeRequirement priority ms = true ->
  AlertProcessor.checkResponseTimeRequirement priority' ms' = true.
Proof.
  destruct priority, priority'; simpl; rewrite !Z.leb_le; lia.
Qed.

Lemma checkResponseTimeRequirement_monotone_witness :
  AlertProcessor.checkResponseTimeRequirement MEDIUM 1200 = true.
Proof.
  apply (checkResponseTimeRequirement_monotone CRITICAL MEDIUM 1500 1200);
    [simpl; lia | lia | reflexivity].
Defined.

(** ** The scheduler, further *)

(** X13. [addPatient] files the patient under its id, replacing the record
    of a patient registered with that id before, and leaves the other
    patients and the alert processor alone.  Each call, a repeated one
    included, appends four devices for that id, numbered on from the
    number of devices there were, for heart rate, blood pressure, oxygen
    saturation and temperature. *)
Theorem addPatient_registers (patient : Patient.t) (hs : HospitalScheduler.t) :
  let hs' := HospitalScheduler.addPatient patient hs in
  let id := Patient.getId patient in
  let n := Z.of_nat (length (HospitalScheduler.devices hs)) in
  HospitalScheduler.patients hs' !! id = Some patient
  /\ (forall pid, pid <> id ->
        HospitalScheduler.patients hs' !! pid
        = HospitalScheduler.patients hs !! pid)
  /\ HospitalScheduler.devices hs'
     = HospitalScheduler.devices hs
         ++ [MedicalDevice.new n HEART_RATE id;
             MedicalDevice.new (n + 1) BLOOD_PRESSURE id;
             MedicalDevice.new (n + 2) OXYGEN_SATURATION id;
             MedicalDevice.new (n + 3) TEMPERATURE id]
  /\ HospitalScheduler.alertProcessor hs'
     = HospitalScheduler.alertProcessor hs.
Proof.
  intros hs' id n. unfold hs', HospitalScheduler.addPatient. simpl.
  fold id. split; [apply lookup_insert_eq|].
  split; [intros pid Hpid; now apply lookup_insert_ne|].
  split; [|reflexivity].
  unfold HospitalScheduler.createDevicesForPatient.
  rewrite <- !app_assoc. simpl. rewrite !length_app. simpl.
  unfold n. repeat f_equal; lia.
Qed.

Lemma run_invariant {libm : Libm} (P : HospitalScheduler.t -> Prop) :
  P HospitalScheduler.new ->
  (forall hs s, P hs -> P (Simulation.step hs s)) ->
  forall steps, P (Simulation.run steps).
Proof.
  intros Hnew Hstep steps. unfold Simulation.run.
  revert Hnew. generalize HospitalScheduler.new.
  induction steps as [|s steps IH]; intros hs Hhs; simpl; auto.
Qed.

Lemma processVitalReading_devices {libm : Libm} (now_alert now_trend : Z)
    (reading : VitalReading.t) (hs : HospitalScheduler.t) :
  HospitalScheduler.devices
    (fst (HospitalScheduler.processVitalReading now_alert now_trend reading hs))
  = HospitalScheduler.devices hs.
Proof.
  unfold HospitalScheduler.processVitalReading.
  destruct (HospitalScheduler.patients hs !! VitalReading.patientId reading);
    [|reflexivity].
  destruct (negb (Priority_eqb _ LOW));
    [destruct (negb (FalseAlarmDetector.isLikelyFalseAlarm _ _))|];
    reflexivity.
Qed.

(** The alerts one call of [processVitalReading] adds to the queue. *)
Lemma processVitalReading_added {libm : Libm} (now_alert now_trend : Z)
    (reading : VitalReading.t) (hs : HospitalScheduler.t) :
  exists added,
    AlertProcessor.alertQueue
      (HospitalScheduler.alertProcessor
         (fst (HospitalScheduler.processVitalReading now_alert now_trend
                 reading hs)))
    = AlertProcessor.alertQueue (HospitalScheduler.alertProcessor hs)
        ++ added
    /\ (length added <= 2)%nat
    /\ List.Forall
         (fun alert =>
            Alert.patientId alert = VitalReading.patientId reading
            /\ Alert.relatedVital alert = VitalReading.type reading
            /\ Alert.acknowledged alert = false
            /\ Alert.priority alert <> LOW
            /\ (Alert.createdAt alert = now_alert
                \/ Alert.createdAt alert = now_trend)
            /\ is_Some (HospitalScheduler.patients hs
                          !! VitalReading.patientId reading))
         added.
Proof.
  unfold HospitalScheduler.processVitalReading.
  destruct (HospitalScheduler.patients hs !! VitalReading.patientId reading)
    as [p|] eqn:Hp.
  2: { exists []. simpl. rewrite app_nil_r. repeat split; auto. }
  set (patient := Patient.addVitalReading reading p).
  set (risk := Patient.assessRisk reading patient).
  assert (Hrisk : Priority_eqb risk LOW = false -> risk <> LOW).
  { intros E ->. discriminate E. }
  destruct (Priority_eqb risk LOW) eqn:Hlow; cbn [negb];
    [|destruct (FalseAlarmDetector.isLikelyFalseAlarm _ _); cbn [negb]];
    destruct (Patient.detectTrend _ _); simpl;
    unfold PriorityQueue.push; rewrite <- ?app_assoc;
    (eexists; split; [try reflexivity; symmetry; apply app_nil_r|]);
    simpl; (split; [lia|]);
    repeat constructor; simpl; auto; discriminate.
Qed.

(** X14. [processVitalReading] touches nothing but the window it appends
    to and the end of the queue: the records of the other patients and
    the devices are as before, the alerts queued before are still queued
    in their place, and at most two alerts follow them, all for the patient
    and vital of the reading, unacknowledged, and of a priority other than
    LOW. *)
Theorem processVitalReading_frame {libm : Libm} (now_alert now_trend : Z)
    (reading : VitalReading.t) (hs : HospitalScheduler.t) :
  let hs' :=
    fst (HospitalScheduler.processVitalReading now_alert now_trend
           reading hs) in
  (forall pid, pid <> VitalReading.patientId reading ->
     HospitalScheduler.patients hs' !! pid
     = HospitalScheduler.patients hs !! pid)
  /\ (forall p', HospitalScheduler.patients hs'
                   !! VitalReading.patientId reading = Some p' ->
        forall vital, vital <> VitalReading.type reading ->
          exists p,
            HospitalScheduler.patients hs
              !! VitalReading.patientId reading = Some p
            /\ Patient.vitalHistory p' vital = Patient.vitalHistory p vital)
  /\ HospitalScheduler.devices hs' = HospitalScheduler.devices hs
  /\ exists added,
       AlertProcessor.alertQueue (HospitalScheduler.alertProcessor hs')
       = AlertProcessor.alertQueue (HospitalScheduler.alertProcessor hs)
           ++ added
       /\ (length added <= 2)%nat
       /\ List.Forall
            (fun alert =>
               Alert.patientId alert = VitalReading.patientId reading
               /\ Alert.relatedVital alert = VitalReading.type reading
               /\ Alert.acknowledged alert = false
               /\ Alert.priority alert <> LOW)
            added.
Proof.
  intros hs'. unfold hs'. split; [|split; [|split]].
  - intros pid Hpid. rewrite processVitalReading_lookup.
    destruct (Z.eqb_spec (VitalReading.patientId reading) pid);
      [congruence|].
    now destruct (HospitalScheduler.patients hs !! pid).
  - intros p' Hp' vital Hvital. rewrite processVitalReading_lookup in Hp'.
    destruct (HospitalScheduler.patients hs
                !! VitalReading.patientId reading) as [p|];
      [|discriminate Hp'].
    exists p. split; [reflexivity|]. simpl in Hp'.
    rewrite Z.eqb_refl in Hp'. injection Hp' as <-.
    now apply addVitalReading_fifo.
  - apply processVitalReading_devices.
  - destruct (processVitalReading_added now_alert now_trend reading hs)
      as (added & Hq & Hlen & Hall).
    exists added. split; [exact Hq|]. split; [exact Hlen|].
    eapply List.Forall_impl; [|exact Hall]. simpl. tauto.
Qed.

(** ** Invariants of the simulation *)

Lemma step_devices {libm : Libm}
    (hs : HospitalScheduler.t) (s : Simulation.Step) :
  HospitalScheduler.devices (Simulation.step hs s)
  = match s with
    | Simulation.AddPatient id _ _ =>
        HospitalScheduler.createDevicesForPatient id
          (HospitalScheduler.devices hs)
    | _ => HospitalScheduler.devices hs
    end.
Proof.
  destruct s as [id name age|na nt r|clock]; simpl.
  - reflexivity.
  - apply processVitalReading_devices.
  - now destruct (AlertProcessor.processAllAlerts _ _) as [[ap out]|].
Qed.

Lemma step_registered {libm : Libm}
    (hs : HospitalScheduler.t) (s : Simulation.Step)
    (pid : Z) :
  is_Some (HospitalScheduler.patients hs !! pid) ->
  is_Some (HospitalScheduler.patients (Simulation.step hs s) !! pid).
Proof.
  intros Hreg. destruct s as [id name age|na nt r|clock]; simpl.
  - rewrite lookup_insert. case_decide; [eexists; reflexivity | exact Hreg].
  - rewrite processVitalReading_lookup. destruct Hreg as [p ->].
    eexists. reflexivity.
  - now destruct (AlertProcessor.processAllAlerts _ _) as [[ap out]|].
Qed.

(** X15. Throughout the simulation the devices are numbered by their place
    in the list, all are active, each belongs to a registered patient, none
    monitors the respiratory rate, and there are four of them for each
    registration made. *)
Theorem devices_invariant {libm : Libm} (steps : list Simulation.Step) :
  let hs := Simulation.run steps in
  length (HospitalScheduler.devices hs)
    = (4 * Simulation.registrations steps)%nat
  /\ forall i device,
       HospitalScheduler.devices hs !! i = Some device ->
       MedicalDevice.deviceId device = Z.of_nat i
       /\ MedicalDevice.isDeviceActive device = true
       /\ MedicalDevice.getVitalSign device <> RESPIRATORY_RATE
       /\ is_Some (HospitalScheduler.patients hs
                     !! MedicalDevice.getPatientId device).
Proof.
  intros hs. split.
  - unfold hs, Simulation.run, Simulation.registrations.
    assert (Hgen : forall hs0,
              length (HospitalScheduler.devices
                        (fold_left Simulation.step steps hs0))
              = (length (HospitalScheduler.devices hs0)
                 + 4 * length
                         (List.filter
                            (fun s => match s with
                                      | Simulation.AddPatient _ _ _ => true
                                      | _ => false
                                      end) steps))%nat).
    { induction steps as [|s steps IH]; intros hs0; simpl; [lia|].
      rewrite IH, step_devices.
      destruct s; simpl; try lia.
      unfold HospitalScheduler.createDevicesForPatient.
      rewrite !length_app. simpl. lia. }
    now rewrite Hgen.
  - unfold hs. apply (run_invariant
      (fun hs => forall i device,
         HospitalScheduler.devices hs !! i = Some device ->
         MedicalDevice.deviceId device = Z.of_nat i
         /\ MedicalDevice.isDeviceActive device = true
         /\ MedicalDevice.getVitalSign device <> RESPIRATORY_RATE
         /\ is_Some (HospitalScheduler.patients hs
                       !! MedicalDevice.getPatientId device))).
    + intros i device Hd. discriminate Hd.
    + intros hs0 s IH i device. rewrite step_devices.
      assert (Hold : HospitalScheduler.devices hs0 !! i = Some device ->
                MedicalDevice.deviceId device = Z.of_nat i
                /\ MedicalDevice.isDeviceActive device = true
                /\ MedicalDevice.getVitalSign device <> RESPIRATORY_RATE
                /\ is_Some (HospitalScheduler.patients (Simulation.step hs0 s)
                              !! MedicalDevice.getPatientId device)).
      { intros Hd. destruct (IH i device Hd) as (? & ? & ? & ?).
        auto using step_registered. }
      destruct s as [id name age|na nt r|clock]; try exact Hold.
      unfold HospitalScheduler.createDevicesForPatient.
      rewrite <- !app_assoc. simpl app.
      intros Hd. apply lookup_app_Some in Hd as [Hd | [Hge Hd]];
        [now apply Hold|].
      set (n := length (HospitalScheduler.devices hs0)) in *.
      assert (Hreg : is_Some
                (HospitalScheduler.patients
                   (Simulation.step hs0 (Simulation.AddPatient id name age))
                   !! id)).
      { simpl. unfold Patient.getId. simpl. rewrite lookup_insert_eq.
        eexists; reflexivity. }
      rewrite !length_app in Hd. simpl length in Hd.
      destruct (i - n)%nat as [|[|[|[|k]]]] eqn:Hk; simpl in Hd;
        try discriminate Hd; injection Hd as <-; simpl;
        (split; [fold n; lia|]); (split; [reflexivity|]);
        (split; [discriminate | exact Hreg]).
Qed.

Lemma step_queue {libm : Libm}
    (hs : HospitalScheduler.t) (s : Simulation.Step) :
  exists added,
    (AlertProcessor.alertQueue
       (HospitalScheduler.alertProcessor (Simulation.step hs s))
     = AlertProcessor.alertQueue (HospitalScheduler.alertProcessor hs)
         ++ added
     \/ AlertProcessor.alertQueue
          (HospitalScheduler.alertProcessor (Simulation.step hs s)) = [])
    /\ List.Forall
         (fun alert =>
            Alert.acknowledged alert = false
            /\ Alert.priority alert <> LOW
            /\ is_Some (HospitalScheduler.patients hs
                          !! Alert.patientId alert))
         added.
Proof.
  destruct s as [id name age|na nt r|clock]; simpl.
  - exists []. split; [left; now rewrite app_nil_r | constructor].
  - destruct (processVitalReading_added na nt r hs) as (added & Hq & _ & Hall).
    exists added. split; [now left|].
    eapply List.Forall_impl; [|exact Hall]. simpl.
    intros a (Hpid & _ & Hack & Hlow & _ & Hreg). rewrite Hpid. auto.
  - exists []. split; [|constructor]. right.
    unfold AlertProcessor.processAllAlerts.
    now rewrite processAllAlerts_loop_drain by lia.
Qed.

(** X16. Throughout the simulation every queued alert is unacknowledged,
    belongs to a registered patient and has a priority other than LOW: no
    LOW alert is ever queued, so none is ever handled. *)
Theorem alertQueue_invariant {libm : Libm} (steps : list Simulation.Step) :
  let hs := Simulation.run steps in
  List.Forall
    (fun alert =>
       Alert.acknowledged alert = false
       /\ Alert.priority alert <> LOW
       /\ is_Some (HospitalScheduler.patients hs !! Alert.patientId alert))
    (AlertProcessor.alertQueue (HospitalScheduler.alertProcessor hs)).
Proof.
  intros hs. unfold hs. apply run_invariant; [constructor|].
  intros hs0 s IH.
  destruct (step_queue hs0 s) as (added & [Hq | Hq] & Hadded);
    rewrite Hq; [|constructor].
  apply List.Forall_app. split; (eapply List.Forall_impl; [|eassumption]);
    simpl; intros a (? & ? & ?); auto using step_registered.
Qed.

Lemma step_counters {libm : Libm}
    (hs : HospitalScheduler.t) (s : Simulation.Step) :
  AlertProcessor.falseAlarmsFiltered
    (HospitalScheduler.alertProcessor (Simulation.step hs s))
  = AlertProcessor.falseAlarmsFiltered (HospitalScheduler.alertProcessor hs)
  /\ AlertProcessor.totalAlertsProcessed
       (HospitalScheduler.alertProcessor (Simulation.step hs s))
     = AlertProcessor.totalAlertsProcessed (HospitalScheduler.alertProcessor hs)
       + match s with
         | Simulation.ProcessAllAlerts _ =>
             Z.of_nat (length (AlertProcessor.alertQueue
                                 (HospitalScheduler.alertProcessor hs)))
         | _ => 0
         end.
Proof.
  destruct s as [id name age|na nt r|clock]; simpl.
  - split; [reflexivity | lia].
  - destruct (processVitalReading_counters na nt r hs) as [Ht Hf].
    unfold AlertProcessor.getTotalAlertsProcessed,
      AlertProcessor.getFalseAlarmsFiltered in *.
    rewrite Ht, Hf. split; [reflexivity | lia].
  - unfold AlertProcessor.processAllAlerts.
    rewrite processAllAlerts_loop_drain by lia. simpl. auto.
Qed.

(** X17. Throughout the simulation the count of filtered false alarms is
    0, whatever was suppressed: [printStatistics] always ends with
    "False Alarms Filtered: 0".  The count of processed alerts is never
    negative, and it moves only when the queue is emptied. *)
Theorem counters_invariant {libm : Libm} (steps : list Simulation.Step) :
  let hs := Simulation.run steps in
  AlertProcessor.getFalseAlarmsFiltered (HospitalScheduler.alertProcessor hs)
    = 0
  /\ 0 <= AlertProcessor.getTotalAlertsProcessed
            (HospitalScheduler.alertProcessor hs)
  /\ List.last (HospitalScheduler.printStatistics hs) (Line "")
     = Line "False Alarms Filtered: 0"
  /\ (forall s,
        (forall clock, s <> Simulation.ProcessAllAlerts clock) ->
        AlertProcessor.getTotalAlertsProcessed
          (HospitalScheduler.alertProcessor (Simulation.step hs s))
        = AlertProcessor.getTotalAlertsProcessed
            (HospitalScheduler.alertProcessor hs)).
Proof.
  intros hs.
  assert (Hinv : AlertProcessor.falseAlarmsFiltered
                   (HospitalScheduler.alertProcessor hs) = 0
                 /\ 0 <= AlertProcessor.totalAlertsProcessed
                           (HospitalScheduler.alertProcessor hs)).
  { unfold hs. apply run_invariant; [split; [reflexivity | simpl; lia]|].
    intros hs0 s [Hf Ht]. destruct (step_counters hs0 s) as [Hf' Ht'].
    rewrite Hf', Ht'. split; [exact Hf|]. destruct s; lia. }
  destruct Hinv as [Hf Ht].
  unfold AlertProcessor.getFalseAlarmsFiltered,
    AlertProcessor.getTotalAlertsProcessed.
  split; [exact Hf|]. split; [exact Ht|]. split.
  - unfold HospitalScheduler.printStatistics,
      AlertProcessor.getFalseAlarmsFiltered. rewrite Hf. reflexivity.
  - intros s Hs. destruct (step_counters hs s) as [_ Ht'].
    rewrite Ht'. destruct s; try lia. now destruct (Hs clock).
Qed.

(** ** The devices *)

Module DeviceFacts.

#[local] Open Scope float_scope.

(** The value a device of base value [base] gives for the noise draw [a]
    (the remainder modulo 21) and, when there is a spike, the spike draw
    [b] (the remainder modulo 61). *)
Lemma generateReading_value (d : MedicalDevice.t) (w : World.t) :
  let r1 := World.rand_values w (World.rand_calls w) in
  let r2 := World.rand_values w (S (World.rand_calls w)) in
  let r3 := World.rand_values w (S (S (World.rand_calls w))) in
  let noise := Double.of_int (Z.rem r1 21 - 10) * 0.1 in
  let spike := Double.of_int (Z.rem r3 61 - 30) in
  let reading := fst (MedicalDevice.generateReading d w) in
  let w' := snd (MedicalDevice.generateReading d w) in
  VitalReading.type reading = MedicalDevice.monitoredVital d
  /\ VitalReading.patientId reading = MedicalDevice.assignedPatient d
  /\ VitalReading.timestamp reading
     = World.clock_values w (World.clock_calls w)
  /\ VitalReading.value reading
     = MedicalDevice.getBaseValue d
       + (if (Z.rem r2 100 <? 10)%Z then noise + spike else noise)
  /\ World.rand_calls w'
     = (World.rand_calls w + if (Z.rem r2 100 <? 10)%Z then 3 else 2)%nat
  /\ World.clock_calls w' = S (World.clock_calls w)
  /\ World.rand_values w' = World.rand_values w
  /\ World.clock_values w' = World.clock_values w.
Proof.
  unfold MedicalDevice.generateReading, MedicalDevice.getAbnormalSpike,
    World.rand, World.now. simpl.
  destruct (Z.rem _ 100 <? 10)%Z; simpl; repeat split; lia.
Qed.

(** All the draws, tried one by one. *)
Lemma all_draws_in_range :
  forallb
    (fun base =>
       forallb
         (fun a =>
            let noise := Double.of_int (Z.of_nat a - 10) * 0.1 in
            (base - 31 <=? base + noise) && (base + noise <=? base + 31)
            && forallb
                 (fun b =>
                    let spike := Double.of_int (Z.of_nat b - 30) in
                    (base - 31 <=? base + (noise + spike))
                    && (base + (noise + spike) <=? base + 31))
                 (seq 0 61))
         (seq 0 21))
    [75.0; 120.0; 98.0; 36.8; 16.0]
  = true.
Proof. vm_compute. reflexivity. Qed.

Lemma rem_draw (r n : Z) :
  (0 <= r)%Z -> (0 < n)%Z ->
  exists a, Z.rem r n = Z.of_nat a /\ In a (seq 0 (Z.to_nat n)).
Proof.
  intros Hr Hn. pose proof (Z.rem_bound_pos r n Hr Hn) as Hb.
  exists (Z.to_nat (Z.rem r n)). split; [lia|].
  apply in_seq. lia.
Qed.

End DeviceFacts.

(** X18. A device gives a reading of its own vital for its own patient,
    stamped with the clock, after two or three calls of [rand()]; its
    value lies within 31 of the base value of the vital (given that
    [rand()] returns no negative number). *)
Theorem generateReading_bounds (d : MedicalDevice.t) (w : World.t) :
  (forall k, 0 <= World.rand_values w k) ->
  let reading := fst (MedicalDevice.generateReading d w) in
  let w' := snd (MedicalDevice.generateReading d w) in
  let base := MedicalDevice.getBaseValue d in
  VitalReading.type reading = MedicalDevice.getVitalSign d
  /\ VitalReading.patientId reading = MedicalDevice.getPatientId d
  /\ VitalReading.timestamp reading
     = World.clock_values w (World.clock_calls w)
  /\ (base - 31 <=? VitalReading.value reading)%float = true
  /\ (VitalReading.value reading <=? base + 31)%float = true
  /\ (World.rand_calls w' = World.rand_calls w + 2
      \/ World.rand_calls w' = World.rand_calls w + 3)%nat
  /\ World.clock_calls w' = S (World.clock_calls w).
Proof.
  intros Hrand reading w' base.
  destruct (DeviceFacts.generateReading_value d w)
    as (Ht & Hp & Hts & Hv & Hr & Hc & _).
  fold reading in Ht, Hp, Hts, Hv. fold w' in Hr, Hc.
  split; [exact Ht|]. split; [exact Hp|]. split; [exact Hts|].
  assert (Hbounds : (base - 31 <=? VitalReading.value reading)%float = true
                    /\ (VitalReading.value reading <=? base + 31)%float
                       = true).
  { rewrite Hv. fold base.
    destruct (DeviceFacts.rem_draw _ 21 (Hrand (World.rand_calls w))
                ltac:(lia)) as (a & -> & Ha).
    destruct (DeviceFacts.rem_draw _ 61
                (Hrand (S (S (World.rand_calls w)))) ltac:(lia))
      as (b & -> & Hb).
    pose proof DeviceFacts.all_draws_in_range as Hall.
    rewrite forallb_forall in Hall.
    assert (Hbase : In base [75.0; 120.0; 98.0; 36.8; 16.0]%float).
    { unfold base, MedicalDevice.getBaseValue.
      destruct (MedicalDevice.monitoredVital d); simpl; tauto. }
    specialize (Hall base Hbase). rewrite forallb_forall in Hall.
    specialize (Hall a Ha). cbv zeta in Hall.
    apply andb_prop in Hall as [Hnoise Hspike].
    apply andb_prop in Hnoise as [Hlo Hhi].
    rewrite forallb_forall in Hspike. specialize (Hspike b Hb).
    apply andb_prop in Hspike as [Hlo' Hhi'].
    destruct (Z.rem _ 100 <? 10); auto. }
  destruct Hbounds as [Hlo Hhi].
  split; [exact Hlo|]. split; [exact Hhi|]. split; [|exact Hc].
  rewrite Hr. destruct (Z.rem _ 100 <? 10); auto.
Qed.

Lemma generateReading_bounds_witness :
  let w := World.mk (fun k => Z.of_nat k + 5) 0 (fun k => 0) 0 in
  let reading :=
    fst (MedicalDevice.generateReading (MedicalDevice.new 0 HEART_RATE 1) w) in
  (44 <=? VitalReading.value reading)%float = true
  /\ (VitalReading.value reading <=? 106)%float = true.
Proof.
  intros w reading.
  destruct (generateReading_bounds (MedicalDevice.new 0 HEART_RATE 1) w)
    as (_ & _ & _ & Hlo & Hhi & _).
  - intros k. simpl. lia.
  - split; [exact Hlo | exact Hhi].
Defined.

(** Only the vital and the value of a reading matter to its class, and the
    CRITICAL and HIGH bands are the same for every patient. *)
Lemma assessRisk_bands (reading reading' : VitalReading.t) (p p' : Patient.t) :
  VitalReading.type reading = VitalReading.type reading' ->
  VitalReading.value reading = VitalReading.value reading' ->
  Patient.assessRisk reading p = CRITICAL
  \/ Patient.assessRisk reading p = HIGH ->
  Patient.assessRisk reading' p' = Patient.assessRisk reading p.
Proof.
  unfold Patient.assessRisk. intros <- <-.
  destruct (VitalReading.type reading);
    repeat match goal with
    | |- context [if ?b then _ else _] => destruct b; cbn [orb]
    end;
    intros [H | H]; try discriminate H; reflexivity.
Qed.

(** All the draws, classified one by one. *)
Lemma all_draws_classified :
  forallb
    (fun a =>
       let noise := (Double.of_int (Z.of_nat a - 10) * 0.1)%float in
       let class vital base x :=
         priority_value
           (Patient.assessRisk (VitalReading.mk vital (base + x) 0 0)
              Scenario.john) in
       (1 <? class HEART_RATE 75.0%float noise)
       && (2 <? class BLOOD_PRESSURE 120.0%float noise)
       && forallb
            (fun b =>
               let spike := Double.of_int (Z.of_nat b - 30) in
               (1 <? class HEART_RATE 75.0%float (noise + spike)%float)
               && (2 <? class BLOOD_PRESSURE 120.0%float
                          (noise + spike)%float))
            (seq 0 61))
    (seq 0 21)
  = true.
Proof. vm_compute. reflexivity. Qed.

(** X19. The devices never give a CRITICAL heart rate, nor a CRITICAL or
    HIGH blood pressure, whoever the patient: the base value and the
    largest spike keep the readings out of those bands. *)
Theorem generateReading_classes (d : MedicalDevice.t) (w : World.t)
    (p : Patient.t) :
  (forall k, 0 <= World.rand_values w k) ->
  let risk := Patient.assessRisk (fst (MedicalDevice.generateReading d w)) p in
  (MedicalDevice.getVitalSign d = HEART_RATE -> risk <> CRITICAL)
  /\ (MedicalDevice.getVitalSign d = BLOOD_PRESSURE ->
      risk <> CRITICAL /\ risk <> HIGH).
Proof.
  intros Hrand risk.
  destruct (DeviceFacts.generateReading_value d w) as (Ht & _ & _ & Hv & _).
  destruct (DeviceFacts.rem_draw _ 21 (Hrand (World.rand_calls w))
              ltac:(lia)) as (a & Ea & Ha).
  destruct (DeviceFacts.rem_draw _ 61
              (Hrand (S (S (World.rand_calls w)))) ltac:(lia))
    as (b & Eb & Hb).
  rewrite Ea, Eb in Hv.
  pose proof all_draws_classified as Hall.
  rewrite forallb_forall in Hall. specialize (Hall a Ha). cbv zeta in Hall.
  apply andb_prop in Hall as [Hnoise Hspike].
  apply andb_prop in Hnoise as [Hhr Hbp].
  rewrite forallb_forall in Hspike. specialize (Hspike b Hb).
  apply andb_prop in Hspike as [Hhr' Hbp'].
  apply Z.ltb_lt in Hhr, Hbp, Hhr', Hbp'.
  unfold MedicalDevice.getVitalSign, MedicalDevice.getBaseValue in *.
  assert (Hcase : forall vital x class,
            MedicalDevice.monitoredVital d = vital ->
            VitalReading.value (fst (MedicalDevice.generateReading d w)) = x ->
            (class = CRITICAL \/ class = HIGH) ->
            risk = class ->
            Patient.assessRisk (VitalReading.mk vital x 0 0) Scenario.john
            = class).
  { intros vital x class Hvital Hx Hclass Hrisk.
    rewrite <- Hrisk. apply assessRisk_bands; simpl.
    - now rewrite Ht.
    - now symmetry.
    - unfold risk in Hrisk. rewrite Hrisk. exact Hclass. }
  split.
  - intros Hvital Hrisk. rewrite Hvital in Hv.
    destruct (Z.rem _ 100 <? 10);
      pose proof (Hcase _ _ CRITICAL Hvital Hv (or_introl eq_refl) Hrisk)
        as E;
      first [rewrite E in Hhr' | rewrite E in Hhr];
      simpl in Hhr, Hhr'; lia.
  - intros Hvital. rewrite Hvital in Hv.
    split; intros Hrisk; destruct (Z.rem _ 100 <? 10);
      first
        [ pose proof (Hcase _ _ CRITICAL Hvital Hv (or_introl eq_refl) Hrisk)
            as E
        | pose proof (Hcase _ _ HIGH Hvital Hv (or_intror eq_refl) Hrisk)
            as E ];
      first [rewrite E in Hbp' | rewrite E in Hbp];
      simpl in Hbp, Hbp'; lia.
Qed.

Lemma generateReading_classes_witness :
  Patient.assessRisk
    (fst (MedicalDevice.generateReading
            (MedicalDevice.new 0 HEART_RATE 1)
            (World.mk (fun k => 9) 0 (fun k => 0) 0)))
    Scenario.john <> CRITICAL.
Proof.
  refine (proj1 (generateReading_classes (MedicalDevice.new 0 HEART_RATE 1)
                   (World.mk (fun k => 9) 0 (fun k => 0) 0) Scenario.john _)
            eq_refl).
  intros k. simpl. lia.
Defined.

(** ** Monitoring cycles *)

Lemma processVitalReading_in_step {libm : Libm} (reading : VitalReading.t)
    (hs : HospitalScheduler.t) (w : World.t) :
  exists now_alert now_trend,
    fst (fst (HospitalScheduler.processVitalReading_in reading hs w))
    = Simulation.step hs (Simulation.Reading now_alert now_trend reading).
Proof.
  unfold HospitalScheduler.processVitalReading_in. simpl.
  destruct (HospitalScheduler.patients hs !! VitalReading.patientId reading)
    eqn:Hp.
  - destruct (negb _); destruct (Patient.detectTrend _ _); simpl;
      eexists _, _; reflexivity.
  - exists 0, 0. simpl.
    now rewrite processVitalReading_unregistered.
Qed.

Lemma tick_0 (w : World.t) : World.tick 0 w = w.
Proof. destruct w. unfold World.tick. simpl. f_equal. lia. Qed.

Lemma processVitalReading_in_reads {libm : Libm} (reading : VitalReading.t)
    (hs : HospitalScheduler.t) (w : World.t) :
  exists alert trend : bool,
    HospitalScheduler.processVitalReading_in reading hs w
    = (HospitalScheduler.processVitalReading
         (if alert then World.clock_values w (World.clock_calls w) else 0)
         (if trend
          then World.clock_values w (World.clock_calls w + Nat.b2n alert)
          else 0)
         reading hs,
       World.tick (Nat.b2n alert + Nat.b2n trend) w).
Proof.
  unfold HospitalScheduler.processVitalReading_in.
  destruct (HospitalScheduler.patients hs !! VitalReading.patientId reading)
    as [patient|] eqn:Hp.
  - exists (negb (Priority_eqb
                    (Patient.assessRisk reading
                       (Patient.addVitalReading reading patient)) LOW)),
      (Patient.detectTrend (VitalReading.type reading)
         (Patient.addVitalReading reading patient)).
    destruct w as [rv rc cv cc].
    destruct (negb _); destruct (Patient.detectTrend _ _);
      unfold World.now, World.tick; simpl;
      rewrite ?Nat.add_0_r, ?Nat.add_1_r; repeat f_equal; lia.
  - exists false, false. simpl.
    now rewrite processVitalReading_unregistered, tick_0.
Qed.

Lemma registrations_app (s1 s2 : list Simulation.Step) :
  Simulation.registrations (s1 ++ s2)
  = (Simulation.registrations s1 + Simulation.registrations s2)%nat.
Proof.
  unfold Simulation.registrations. now rewrite List.filter_app, length_app.
Qed.

Lemma registrations_reading_steps (readings : list (VitalReading.t * Z * Z)) :
  Simulation.registrations (Spec.reading_steps readings) = 0%nat.
Proof.
  induction readings as [|[[reading now_alert] now_trend] readings IH];
    [reflexivity | exact IH].
Qed.


Lemma readDevices_in_turn {libm : Libm} (ds : list MedicalDevice.t)
    (hs : HospitalScheduler.t) (w : World.t) :
  exists readings,
    Spec.read_in_turn w (List.filter MedicalDevice.isDeviceActive ds)
      readings (snd (HospitalScheduler.readDevices ds hs w))
    /\ fst (fst (HospitalScheduler.readDevices ds hs w))
       = fold_left Simulation.step (Spec.reading_steps readings) hs.
Proof.
  revert hs w. induction ds as [|d ds IH]; intros hs w;
    cbn [HospitalScheduler.readDevices List.filter].
  - exists []. split; reflexivity.
  - destruct (MedicalDevice.isDeviceActive d); [|apply IH].
    cbn [Spec.read_in_turn].
    destruct (MedicalDevice.generateReading d w) as [reading w1].
    destruct (processVitalReading_in_reads reading hs w1)
      as (alert & trend & ->).
    set (now_alert := if alert then _ else 0).
    set (now_trend := if trend then _ else 0).
    destruct (HospitalScheduler.processVitalReading now_alert now_trend
                reading hs) as [hs1 out1] eqn:Hstep.
    destruct (IH hs1 (World.tick (Nat.b2n alert + Nat.b2n trend) w1))
      as (readings & Hturn & Hfold).
    destruct (HospitalScheduler.readDevices ds hs1 _) as [[hs2 out2] w3].
    exists ((reading, now_alert, now_trend) :: readings). split.
    + split; [reflexivity|]. exists alert, trend. auto.
    + cbn [Spec.reading_steps map fold_left Simulation.step].
      rewrite Hstep. exact Hfold.
Qed.

Lemma reading_steps_total {libm : Libm}
    (readings : list (VitalReading.t * Z * Z)) (hs : HospitalScheduler.t) :
  AlertProcessor.totalAlertsProcessed
    (HospitalScheduler.alertProcessor
       (fold_left Simulation.step (Spec.reading_steps readings) hs))
  = AlertProcessor.totalAlertsProcessed (HospitalScheduler.alertProcessor hs).
Proof.
  revert hs.
  induction readings as [|[[reading now_alert] now_trend] readings IH];
    intros hs; [reflexivity|].
  cbn [Spec.reading_steps map fold_left]. fold (Spec.reading_steps readings).
  rewrite IH.
  rewrite (proj2 (step_counters hs
                    (Simulation.Reading now_alert now_trend reading))).
  lia.
Qed.

Lemma processAllAlerts_in_step {libm : Libm} (hs : HospitalScheduler.t)
    (w : World.t) :
  let handled :=
    length (AlertProcessor.alertQueue (HospitalScheduler.alertProcessor hs)) in
  let clock :=
    fun k => World.clock_values w (World.clock_calls w + 2 * k)%nat in
  exists hs' out,
    HospitalScheduler.processAllAlerts_in hs w
    = Some (hs', out, World.tick (2 * handled) w)
    /\ hs' = Simulation.step hs (Simulation.ProcessAllAlerts clock)
    /\ AlertProcessor.alertQueue (HospitalScheduler.alertProcessor hs') = []
    /\ AlertProcessor.totalAlertsProcessed
         (HospitalScheduler.alertProcessor hs')
       = AlertProcessor.totalAlertsProcessed
           (HospitalScheduler.alertProcessor hs) + Z.of_nat handled.
Proof.
  intros handled clock. unfold HospitalScheduler.processAllAlerts_in.
  fold clock. fold handled. cbn [Simulation.step].
  unfold AlertProcessor.processAllAlerts. fold handled.
  rewrite (processAllAlerts_loop_drain handled clock 0
             (HospitalScheduler.alertProcessor hs) (le_n _)).
  eexists _, _. repeat split; reflexivity.
Qed.


Lemma cycle_steps {libm : Libm} (hs : HospitalScheduler.t) (w : World.t) :
  exists hs' out w' readings w_end handled,
    HospitalScheduler.simulateMonitoringCycle hs w = Some (hs', out, w')
    /\ Spec.read_in_turn w
         (List.filter MedicalDevice.isDeviceActive
            (HospitalScheduler.devices hs))
         readings w_end
    /\ hs' = fold_left Simulation.step (Spec.cycle_steps readings w_end) hs
    /\ w' = World.tick (2 * handled) w_end
    /\ AlertProcessor.getTotalAlertsProcessed
         (HospitalScheduler.alertProcessor hs')
       = AlertProcessor.getTotalAlertsProcessed
           (HospitalScheduler.alertProcessor hs) + Z.of_nat handled
    /\ AlertProcessor.alertQueue (HospitalScheduler.alertProcessor hs') = [].
Proof.
  unfold HospitalScheduler.simulateMonitoringCycle.
  destruct (readDevices_in_turn (HospitalScheduler.devices hs) hs w)
    as (readings & Hturn & Hfold).
  destruct (HospitalScheduler.readDevices _ hs w) as [[hs1 out1] w1].
  simpl in Hturn, Hfold.
  destruct (processAllAlerts_in_step hs1 w1)
    as (hs2 & out2 & Hall & Hstep & Hempty & Htotal).
  rewrite Hall.
  eexists hs2, (out1 ++ out2), _, readings, w1, _.
  split; [reflexivity|]. split; [exact Hturn|].
  split; [unfold Spec.cycle_steps;
          rewrite fold_left_app, <- Hfold; exact Hstep|].
  split; [reflexivity|].
  split; [|exact Hempty].
  unfold AlertProcessor.getTotalAlertsProcessed. rewrite Htotal, Hfold.
  now rewrite reading_steps_total.
Qed.

Lemma cycle_steps_registrations (readings : list (VitalReading.t * Z * Z))
    (w_end : World.t) :
  Simulation.registrations (Spec.cycle_steps readings w_end) = 0%nat.
Proof.
  unfold Spec.cycle_steps.
  now rewrite registrations_app, registrations_reading_steps.
Qed.


Lemma runCycles_iter {libm : Libm} (n : nat) (i : Z)
    (hs : HospitalScheduler.t) (w : World.t) :
  exists hs' out w' steps,
    HospitalScheduler.runCycles n i hs w = Some (hs', out, w')
    /\ (hs', w') = Nat.iter n Spec.one_cycle (hs, w)
    /\ (forall j, i < j <= i + Z.of_nat n ->
          In (Line ("--- Cycle " ++ to_string j ++ " ---")) out)
    /\ hs' = fold_left Simulation.step steps hs
    /\ Simulation.registrations steps = 0%nat
    /\ ((0 < n)%nat ->
        AlertProcessor.alertQueue (HospitalScheduler.alertProcessor hs') = []).
Proof.
  revert i hs w. induction n as [|n IH]; intros i hs w.
  - exists hs, [], w, []. simpl. repeat split; auto; lia.
  - cbn [HospitalScheduler.runCycles]. rewrite Nat.iter_succ_r.
    destruct (cycle_steps hs w)
      as (hs1 & out1 & w1 & readings & w_end & handled
          & Hcycle & _ & Hs1 & _ & _ & He1).
    assert (Hone : Spec.one_cycle (hs, w) = (hs1, w1))
      by (unfold Spec.one_cycle; simpl; now rewrite Hcycle).
    rewrite Hcycle, Hone.
    destruct (IH (i + 1) hs1 w1)
      as (hs2 & out2 & w2 & steps2 & Hrun & Hiter & Hlines & Hs2 & Hr2 & He2).
    rewrite Hrun.
    eexists hs2, _, w2, (Spec.cycle_steps readings w_end ++ steps2).
    split; [reflexivity|]. split; [exact Hiter|].
    split.
    { intros j Hj. destruct (Z.eq_dec j (i + 1)) as [-> | Hne].
      - right. left. reflexivity.
      - right. right. apply in_or_app. right. apply Hlines. lia. }
    split; [rewrite fold_left_app, <- Hs1; exact Hs2|].
    split; [rewrite registrations_app, cycle_steps_registrations; exact Hr2|].
    intros _. destruct n as [|n]; [|apply He2; lia].
    simpl in Hrun. injection Hrun as <- _ _. exact He1.
Qed.

(** X21. [runSimulation] always comes to an end.  It writes its opening
    line and then, for a positive number of cycles, that many times the
    heading of the cycle and what [simulateMonitoringCycle] does, each
    cycle starting where the one before ended; it registers nobody, and
    ends with no alert queued.  With a number of cycles that is not
    positive it does nothing else than write the opening line. *)
Theorem runSimulation_steps {libm : Libm} (cycles : Z)
    (hs : HospitalScheduler.t) (w : World.t) :
  exists hs' out w' steps,
    HospitalScheduler.runSimulation cycles hs w = Some (hs', out, w')
    /\ (hs', w') = Nat.iter (Z.to_nat cycles) Spec.one_cycle (hs, w)
    /\ List.hd (Line "") out
       = Line ("Starting monitoring simulation for "
                 ++ to_string cycles ++ " cycles...")
    /\ (forall i, 1 <= i <= cycles ->
          In (Line ("--- Cycle " ++ to_string i ++ " ---")) out)
    /\ hs' = fold_left Simulation.step steps hs
    /\ Simulation.registrations steps = 0%nat
    /\ (0 < cycles ->
        AlertProcessor.alertQueue (HospitalScheduler.alertProcessor hs') = [])
    /\ (cycles <= 0 ->
        hs' = hs /\ w' = w
        /\ out = [Line ("Starting monitoring simulation for "
                          ++ to_string cycles ++ " cycles...")%string]).
Proof.
  unfold HospitalScheduler.runSimulation.
  destruct (runCycles_iter (Z.to_nat cycles) 0 hs w)
    as (hs' & out & w' & steps & Hrun & Hiter & Hlines & Hfold & Hreg
        & Hempty).
  rewrite Hrun. eexists hs', _, w', steps.
  split; [reflexivity|]. split; [exact Hiter|]. split; [reflexivity|].
  split; [intros i Hi; right; apply Hlines; lia|].
  split; [exact Hfold|]. split; [exact Hreg|].
  split; [intros Hpos; apply Hempty; lia|].
  intros Hneg. replace (Z.to_nat cycles) with 0%nat in Hrun by lia.
  simpl in Hrun. injection Hrun as <- <- <-. auto.
Qed.

(** ** The interactive session *)

(** X22. Every emergency reading is for the patient asked for and is
    classified CRITICAL, whoever the patient, but for kind 4, hypothermia,
    which the menu calls critical and which is classified HIGH: the
    temperature has no CRITICAL band.  Any kind outside 1 to 4 gives the
    cardiac arrest of kind 1. *)
Theorem createEmergencyReading_class (now emergencyType patientId : Z)
    (p : Patient.t) :
  let reading := createEmergencyReading now emergencyType patientId in
  VitalReading.patientId reading = patientId
  /\ VitalReading.timestamp reading = now
  /\ Patient.assessRisk reading p
     = (if emergencyType =? 4 then HIGH else CRITICAL)
  /\ ((emergencyType < 1 \/ 4 < emergencyType) ->
      reading = createEmergencyReading now 1 patientId).
Proof.
  intros reading. unfold reading, createEmergencyReading.
  destruct emergencyType as [|[[q|q|]|[[q|q|]|[q|q|]|]|]|q];
    simpl; repeat split; try reflexivity; intros [H | H]; lia.
Qed.

Lemma createEmergencyReading_patientId (now emergencyType patientId : Z) :
  VitalReading.patientId (createEmergencyReading now emergencyType patientId)
  = patientId.
Proof.
  unfold createEmergencyReading.
  now destruct emergencyType as [|[[q|q|]|[[q|q|]|[q|q|]|]|]|q].
Qed.

Lemma getUserInput_sound (prompt : string) (min max : Z)
    (input : list Extraction) (value : Z) (out : list Output)
    (rest : list Extraction) :
  getUserInput prompt min max input = Some (value, out, rest) ->
  min <= value <= max
  /\ exists rejected,
       input = rejected ++ Got value :: rest
       /\ List.Forall (out_of_range min max) rejected
       /\ length out = (2 * length rejected + 1)%nat.
Proof.
  revert value out rest.
  induction input as [|attempt input IH]; intros value out rest;
    [discriminate|].
  assert (Hretry : forall complaint,
            match getUserInput prompt min max input with
            | Some (value, out, rest) =>
                Some (value, Line prompt :: Line complaint :: out, rest)
            | None => None
            end = Some (value, out, rest) ->
            out_of_range min max attempt ->
            min <= value <= max
            /\ exists rejected,
                 attempt :: input = rejected ++ Got value :: rest
                 /\ List.Forall (out_of_range min max) rejected
                 /\ length out = (2 * length rejected + 1)%nat).
  { intros complaint Hres Hbad.
    destruct (getUserInput prompt min max input) as [[[v o] r]|];
      [|discriminate Hres].
    injection Hres as <- <- <-.
    destruct (IH v o r eq_refl) as (Hrange & rejected & -> & Hall & Hlen).
    split; [exact Hrange|]. exists (attempt :: rejected).
    split; [reflexivity|]. split; [now constructor|]. simpl. lia. }
  cbn [getUserInput].
  destruct attempt as [|v]; [intros Hres; now apply (Hretry _ Hres)|].
  destruct (Z.leb_spec min v), (Z.leb_spec v max); cbn [andb];
    try (intros Hres; apply (Hretry _ Hres); simpl; lia).
  intros [= <- <- <-]. split; [lia|]. exists [].
  split; [reflexivity|]. split; [constructor | reflexivity].
Qed.

(** X23. [getUserInput] returns nothing but a number between [min] and
    [max]: the first one of the input that is, every extraction before it
    having failed or given a number out of range, and having been answered
    by the prompt and one complaint each.  It keeps asking exactly when the
    input holds no such number. *)
Theorem getUserInput_in_range (prompt : string) (min max : Z)
    (input : list Extraction) :
  (forall value out rest,
     getUserInput prompt min max input = Some (value, out, rest) ->
     min <= value <= max
     /\ exists rejected,
          input = rejected ++ Got value :: rest
          /\ List.Forall (out_of_range min max) rejected
          /\ length out = (2 * length rejected + 1)%nat)
  /\ (getUserInput prompt min max input = None
      <-> List.Forall (out_of_range min max) input).
Proof.
  split; [intros value out rest; apply getUserInput_sound|].
  induction input as [|attempt input IH]; [now split|].
  cbn [getUserInput].
  assert (Hretry : forall complaint,
            out_of_range min max attempt ->
            match getUserInput prompt min max input with
            | Some (value, out, rest) =>
                Some (value, Line prompt :: Line complaint :: out, rest)
            | None => None
            end = None
            <-> List.Forall (out_of_range min max) (attempt :: input)).
  { intros complaint Hbad.
    destruct (getUserInput prompt min max input) as [[[v o] r]|].
    - split; [discriminate|]. intros Hall.
      apply List.Forall_inv_tail, IH in Hall. discriminate Hall.
    - split; [|reflexivity]. intros _. constructor; [exact Hbad|].
      now apply IH. }
  destruct attempt as [|v]; [now apply Hretry|].
  destruct (Z.leb_spec min v), (Z.leb_spec v max); cbn [andb];
    try (apply Hretry; simpl; lia).
  split; [discriminate|]. intros Hall.
  apply List.Forall_inv in Hall. simpl in Hall. lia.
Qed.

Lemma getUserInput_in_range_witness :
  getUserInput "Emergency type (1-4): " 1 4 [Failed; Got 9; Got 3; Got 2]
  = Some (3,
          [Line "Emergency type (1-4): ";
           Line "Invalid input! Please enter a number.";
           Line "Emergency type (1-4): ";
           Line "Please enter a value between 1 and 4";
           Line "Emergency type (1-4): "],
          [Got 2])
  /\ 1 <= 3 <= 4.
Proof.
  split; [reflexivity|].
  exact (proj1 (proj1 (getUserInput_in_range "Emergency type (1-4): " 1 4
                         [Failed; Got 9; Got 3; Got 2]) 3 _ _ eq_refl)).
Defined.

(** X24. An emergency, when the two questions are answered, is a reading
    for a patient numbered 1 to 10 of a kind numbered 1 to 4, as answered,
    handed to [processVitalReading] like any other.  When no patient is
    registered under that number the scheduler is left as it was, and the
    session is told all the same that the emergency simulation is
    complete. *)
Theorem simulateEmergency_reading {libm : Libm} (hs hs' : HospitalScheduler.t)
    (w w' : World.t) (input rest : list Extraction) (out : list Output) :
  simulateEmergency hs w input = Some (hs', out, w', rest) ->
  exists patientId emergencyType out1 out2 input1 now_alert now_trend,
    getUserInput "Enter patient ID for emergency (1-10): " 1 10 input
    = Some (patientId, out1, input1)
    /\ getUserInput "Emergency type (1-4): " 1 4 input1
       = Some (emergencyType, out2, rest)
    /\ 1 <= patientId <= 10
    /\ 1 <= emergencyType <= 4
    /\ hs' = Simulation.step hs
               (Simulation.Reading now_alert now_trend
                  (createEmergencyReading
                     (World.clock_values w (World.clock_calls w))
                     emergencyType patientId))
    /\ (HospitalScheduler.patients hs !! patientId = None -> hs' = hs)
    /\ List.last out (Line "") = Line "Emergency simulation complete.".
Proof.
  unfold simulateEmergency.
  destruct (getUserInput _ 1 10 input) as [[[pid out1] input1]|] eqn:H1;
    [|discriminate].
  destruct (getUserInput _ 1 4 input1) as [[[etype out2] input2]|] eqn:H2;
    [|discriminate].
  pose proof (getUserInput_sound _ _ _ _ _ _ _ H1) as [Hpid _].
  pose proof (getUserInput_sound _ _ _ _ _ _ _ H2) as [Htype _].
  unfold World.now.
  set (reading := createEmergencyReading
                    (World.clock_values w (World.clock_calls w)) etype pid).
  set (w1 := World.mk _ _ _ _).
  destruct (processVitalReading_in_step reading hs w1) as (na & nt & Hstep).
  destruct (HospitalScheduler.processVitalReading_in reading hs w1)
    as [[hs2 out3] w2]. simpl in Hstep.
  intros [= <- <- <- <-].
  exists pid, etype, out1, out2, input1, na, nt.
  split; [reflexivity|]. do 3 (split; [assumption|]).
  split; [exact Hstep|]. split.
  - intros Hnone. rewrite Hstep. simpl.
    rewrite processVitalReading_unregistered; [reflexivity|].
    unfold reading.
    now rewrite createEmergencyReading_patientId.
  - rewrite !app_comm_cons, !app_assoc. apply last_last.
Qed.

Lemma simulateEmergency_reading_witness :
  let w := World.mk (fun _ => 0) 0 (fun k => Z.of_nat k) 0 in
  exists hs' out w' rest,
    simulateEmergency Scenario.ward w [Got 12; Got 3; Failed; Got 4]
    = Some (hs', out, w', rest)
    /\ HospitalScheduler.patients Scenario.ward !! 3 = None
    /\ hs' = Scenario.ward.
Proof.
  intros w.
  destruct (simulateEmergency Scenario.ward w [Got 12; Got 3; Failed; Got 4])
    as [[[[hs' out] w'] rest]|] eqn:E.
  - exists hs', out, w', rest. split; [reflexivity|].
    destruct (simulateEmergency_reading _ _ _ _ _ _ _ E)
      as (pid & etype & out1 & out2 & input1 & na & nt
          & H1 & _ & _ & _ & _ & Hsame & _).
    vm_compute in H1. injection H1 as <- <- <-.
    split; [reflexivity | apply Hsame; reflexivity].
  - vm_compute in E. discriminate E.
Defined.
